(** * pickyport: command planning and execution of a database portage

    A shallow embedding of [pickyport.py].  The script reads a job
    description (one entry of the [portages] sequence of the YAML file),
    builds a list of [(description, command)] pairs for the [mysqldump] and
    [mysql] clients, runs them through a shell and finally removes the
    temporary dump files.

    Everything the script reads from its surroundings (the [PATH], which
    files exist, which names the temporary-file facility hands out, what a
    spawned command writes on its error stream) is gathered in a record
    [World]; everything it does to its surroundings (lines printed, commands
    spawned, files removed) is returned as a value. *)

From Stdlib Require Import String Ascii List Bool Arith Lia.
Import ListNotations.
Local Open Scope list_scope.
Local Open Scope string_scope.

(** ** Python strings *)

Module PyStr.

(** The newline character and the double quote, which the script uses
    inside its literals. *)
Definition nl : string := String (ascii_of_nat 10) EmptyString.
Definition dquote_char : ascii := ascii_of_nat 34.
Definition dquote : string := String dquote_char EmptyString.

(** [needle in hay] on Python strings. *)
Fixpoint contains (needle hay : string) : bool :=
  prefix needle hay ||
  match hay with
  | EmptyString => false
  | String _ hay' => contains needle hay'
  end.

(** [s.split(sep)] for a one-character separator. *)
Fixpoint split_on (sep : ascii) (s : string) : list string :=
  match s with
  | EmptyString => [EmptyString]
  | String c s' =>
      if Ascii.eqb c sep then EmptyString :: split_on sep s'
      else match split_on sep s' with
           | [] => [String c EmptyString]
           | w :: ws => String c w :: ws
           end
  end.

Fixpoint lstrip (c : ascii) (s : string) : string :=
  match s with
  | String d s' => if Ascii.eqb d c then lstrip c s' else s
  | EmptyString => EmptyString
  end.

Fixpoint rev_string (s : string) : string :=
  match s with
  | EmptyString => EmptyString
  | String c s' => rev_string s' ++ String c EmptyString
  end.

(** [s.strip(c)]: the character is dropped at both ends. *)
Definition strip (c : ascii) (s : string) : string :=
  rev_string (lstrip c (rev_string (lstrip c s))).

Definition ends_with_slash (s : string) : bool :=
  match rev_string s with
  | String c _ => Ascii.eqb c "/"
  | EmptyString => false
  end.

(** [os.path.join(a, b)] on a POSIX system. *)
Definition path_join (a b : string) : string :=
  if prefix "/" b then b
  else if (String.eqb a "" || ends_with_slash a)%bool then a ++ b
  else a ++ "/" ++ b.

(** [str(x)] for a value that is a string or [None], as [%s] prints it. *)
Definition str_opt (o : option string) : string :=
  match o with
  | Some s => s
  | None => "None"
  end.

End PyStr.
Import PyStr.

(** ** The surroundings of a run *)

Record World := {
  (* [os.environ["PATH"]] *)
  env_PATH : string;
  (* [os.path.isfile(p) and os.access(p, os.X_OK)] *)
  is_exe : string -> bool;
  (* [os.path.isfile(p)] *)
  isfile : string -> bool;
  (* the name [NamedTemporaryFile(suffix='.sql', delete=False)] gives to the
      [n]-th temporary file of the process *)
  temp_name : nat -> string;
  (* what the [n]-th spawned command, with the given text, leaves on its
      standard error *)
  popen_stderr : nat -> string -> string
}.

(** Exceptions the modelled code can raise. *)
Inductive exn :=
| KeyError (key : string)
| Exception (msg : string).

Inductive result (A : Type) :=
| Ok (a : A)
| Raise (e : exn).
Arguments Ok {A} a.
Arguments Raise {A} e.

Definition bind {A B} (r : result A) (k : A -> result B) : result B :=
  match r with
  | Ok a => k a
  | Raise e => Raise e
  end.

Notation "x <- c ;; k" := (bind c (fun x => k))
  (at level 61, c at next level, right associativity).

(** ** [which] *)

Fixpoint first_exe (w : World) (program : string) (dirs : list string)
  : option string :=
  match dirs with
  | [] => None
  | os_path :: rest =>
      let exe_file := path_join (strip dquote_char os_path) program in
      if is_exe w exe_file then Some exe_file else first_exe w program rest
  end.

(** [os.path.split(program)] has a non-empty directory part exactly when the
    name has a slash in it. *)
Definition which (w : World) (program : string) : option string :=
  if contains "/" program then
    if is_exe w program then Some program else None
  else first_exe w program (split_on ":" (env_PATH w)).

(** ** The configuration of one job *)

Record conn := {
  host : string;
  user : string;
  password : string;
  name : string
}.

(** The [permissions] entry of a test user: the key may be missing from the
    mapping, may be present with a null value, or may hold a string. *)
Inductive perm_field :=
| PermAbsent
| PermNull
| PermStr (s : string).

Record test_user := {
  tu_user : string;
  tu_password : string;
  tu_permissions : perm_field
}.

(** [dest] is one mapping or a sequence of mappings. *)
Inductive dest_field :=
| DestOne (d : conn)
| DestList (ds : list conn).

(** One entry of [portages].  An optional key is [None] when the key is
    not in the mapping. *)
Record port_info := {
  pi_source : conn;
  pi_dest : dest_field;
  pi_create_dest_db : option bool;
  pi_test_users : option (list test_user);
  pi_fetch_data : option bool;
  pi_ignore_tables : option (list string);
  pi_update : option (list string)
}.

(** ** The porter object *)

Record Porter := {
  quiet : bool;
  debug : bool;
  dry_run : bool;
  source : conn;
  dest : list conn;
  test_users : list test_user;
  create_dest_db : bool;
  fetch_data : bool;
  ignore_tables : list string;
  temp_files : list string;
  update_scripts : list string;
  mysqldump : option string;
  mysql : option string
}.

Definition set_temp_files (p : Porter) (tfs : list string) : Porter :=
  {| quiet := quiet p; debug := debug p; dry_run := dry_run p;
     source := source p; dest := dest p; test_users := test_users p;
     create_dest_db := create_dest_db p; fetch_data := fetch_data p;
     ignore_tables := ignore_tables p; temp_files := tfs;
     update_scripts := update_scripts p;
     mysqldump := mysqldump p; mysql := mysql p |}.

Definition from_option {A} (o : option A) (dflt : A) : A :=
  match o with
  | Some a => a
  | None => dflt
  end.

(** [BasePorter.__init__] followed by [set_variables]: a field keeps the
    default of [__init__] unless its key is in [port_info]. *)
Definition set_variables (pi : port_info) (q dbg dry : bool)
    (dump_exe load_exe : option string) : Porter :=
  {| quiet := q; debug := dbg; dry_run := dry;
     source := pi_source pi;
     dest := match pi_dest pi with
             | DestOne d => [d]
             | DestList ds => ds
             end;
     test_users := from_option (pi_test_users pi) [];
     create_dest_db := from_option (pi_create_dest_db pi) false;
     fetch_data := from_option (pi_fetch_data pi) true;
     ignore_tables := from_option (pi_ignore_tables pi) [];
     temp_files := [];
     update_scripts := from_option (pi_update pi) [];
     mysqldump := dump_exe; mysql := load_exe |}.

(** [MySQLPorter.__init__].  Both tests look at [self.mysqldump]. *)
Definition MySQLPorter_init (w : World) (pi : port_info) (q dbg dry : bool)
  : result Porter :=
  let self_mysqldump := which w "mysqldump" in
  match self_mysqldump with
  | None => Raise (Exception "Must have mysqldump executable in PATH")
  | Some _ =>
      let self_mysql := which w "mysql" in
      match self_mysqldump with
      | None => Raise (Exception "Must have mysql executable in PATH")
      | Some _ => Ok (set_variables pi q dbg dry self_mysqldump self_mysql)
      end
  end.

(** ** Rendering the commands ([MySQLPorter]) *)

(** A planned step: the description echoed on the console and the command
    handed to the shell. *)
Definition step : Type := string * string.

Definition truthy {A} (l : list A) : bool :=
  match l with
  | [] => false
  | _ :: _ => true
  end.

(** ['--ignore-table=%s.%s ' % (self.source['name'], ignore)] *)
Definition ignore_flag (src_name table : string) : string :=
  "--ignore-table=" ++ src_name ++ "." ++ table ++ " ".

(** The loop that builds [ignored_tables] by repeated [+=]. *)
Fixpoint ignored_tables_loop (src_name : string) (todo : list string)
    (ignored_tables : string) : string :=
  match todo with
  | [] => ignored_tables
  | ignore :: rest =>
      ignored_tables_loop src_name rest
        (ignored_tables ++ ignore_flag src_name ignore)
  end.

Definition data_flag (p : Porter) (schema_only : bool) : string :=
  if schema_only then "--no-data"
  else if truthy (ignore_tables p) then "--no-create-info --complete-insert"
  else "--complete-insert".

Definition dump_type (p : Porter) (schema_only : bool) : string :=
  if schema_only then "empty schema"
  else if truthy (ignore_tables p) then "selected data"
  else "all tables and data".

Definition create_dump_command (p : Porter) (schema_only : bool)
    (output_file : string) : step :=
  let src := source p in
  let ignored_tables := ignored_tables_loop (name src) (ignore_tables p) "" in
  let dump_cmd :=
    str_opt (mysqldump p) ++ " --lock-tables=false --routines=true " ++
    data_flag p schema_only ++ " " ++ ignored_tables ++
    " --result-file=" ++ output_file ++ " " in
  let dump_cmd :=
    dump_cmd ++ ("-h" ++ host src ++ " -u" ++ user src ++ " -p" ++
                 password src ++ " " ++ name src) in
  let dump_echo :=
    "Dumping " ++ dump_type p schema_only ++ " from " ++ host src ++ "." ++
    name src ++ "..." in
  (dump_echo, dump_cmd).

Definition load_step (p : Porter) (input_file : string) (d : conn) : step :=
  let load_cmd :=
    str_opt (mysql p) ++ " -h" ++ host d ++ " -u" ++ user d ++ " -p" ++
    password d ++ " " ++ name d ++ " < " ++ input_file in
  let load_echo :=
    "Loading " ++ input_file ++ " on " ++ name d ++ "." ++ host d ++ "..." in
  (load_echo, load_cmd).

Fixpoint create_load_loop (p : Porter) (input_file : string)
    (todo : list conn) (load_commands : list step) : list step :=
  match todo with
  | [] => load_commands
  | d :: rest =>
      create_load_loop p input_file rest
        (load_commands ++ [load_step p input_file d])
  end.

Definition create_load_commands (p : Porter) (input_file : string)
  : list step :=
  create_load_loop p input_file (dest p) [].

Definition create_db_step (p : Porter) (d : conn) : step :=
  let create_sql :=
    "DROP DATABASE IF EXISTS " ++ name d ++ "; CREATE DATABASE " ++ name d ++
    ";" in
  let create_cmd :=
    str_opt (mysql p) ++ " -h" ++ host d ++ " -u" ++ user d ++ " -p" ++
    password d ++ " -e '" ++ create_sql ++ "'" in
  let create_echo := "Creating " ++ name d ++ " on " ++ host d ++ "..." in
  (create_echo, create_cmd).

Fixpoint create_db_loop (p : Porter) (todo : list conn)
    (create_commands : list step) : list step :=
  match todo with
  | [] => create_commands
  | d :: rest =>
      create_db_loop p rest (create_commands ++ [create_db_step p d])
  end.

Definition create_db_commands (p : Porter) : list step :=
  create_db_loop p (dest p) [].

(** [test_user['permissions']]: a missing key raises. *)
Definition lookup_permissions (tu : test_user) : result (option string) :=
  match tu_permissions tu with
  | PermAbsent => Raise (KeyError "permissions")
  | PermNull => Ok None
  | PermStr s => Ok (Some s)
  end.

(** The [if]/[elif]/[else] on the looked-up value; [None] equals neither
    literal. *)
Definition privileges_of (level : option string) : string :=
  match level with
  | Some s =>
      if String.eqb s "write" then "SELECT, INSERT, UPDATE, DELETE, EXECUTE"
      else if String.eqb s "admin" then "ALL"
      else "SELECT"
  | None => "SELECT"
  end.

Definition grant_step (p : Porter) (tu : test_user) (level : option string)
    (permissions : string) (d : conn) : step :=
  let grant_sql :=
    "GRANT " ++ permissions ++ " on " ++ name d ++ ".* to '" ++ tu_user tu ++
    "'@'%' IDENTIFIED BY '" ++ tu_password tu ++ "'; FLUSH PRIVILEGES;" in
  let grant_cmd :=
    str_opt (mysql p) ++ " -h" ++ host d ++ " -u" ++ user d ++ " -p" ++
    password d ++ " -e " ++ dquote ++ grant_sql ++ dquote in
  let grant_echo :=
    "Granting " ++ tu_user tu ++ " " ++ str_opt level ++ " permission on " ++
    host d ++ "." ++ name d ++ "..." in
  (grant_echo, grant_cmd).

Fixpoint grant_dest_loop (p : Porter) (tu : test_user)
    (level : option string) (permissions : string) (todo : list conn)
    (grant_commands : list step) : list step :=
  match todo with
  | [] => grant_commands
  | d :: rest =>
      grant_dest_loop p tu level permissions rest
        (grant_commands ++ [grant_step p tu level permissions d])
  end.

Fixpoint grant_user_loop (p : Porter) (todo : list test_user)
    (grant_commands : list step) : result (list step) :=
  match todo with
  | [] => Ok grant_commands
  | tu :: rest =>
      level <- lookup_permissions tu ;;
      let permissions := privileges_of level in
      grant_user_loop p rest
        (grant_dest_loop p tu level permissions (dest p) grant_commands)
  end.

Definition create_grant_commands (p : Porter) : result (list step) :=
  grant_user_loop p (test_users p) [].

Definition update_step (p : Porter) (update : string) (d : conn) : step :=
  let create_cmd :=
    str_opt (mysql p) ++ " -h" ++ host d ++ " -u" ++ user d ++ " -p" ++
    password d ++ " " ++ name d ++ " < " ++ update in
  let create_echo :=
    "Applying " ++ update ++ " to " ++ host d ++ "." ++ name d ++ "..." in
  (create_echo, create_cmd).

Fixpoint update_dest_loop (p : Porter) (update : string) (todo : list conn)
    (update_commands : list step) : list step :=
  match todo with
  | [] => update_commands
  | d :: rest =>
      update_dest_loop p update rest
        (update_commands ++ [update_step p update d])
  end.

(** The loop of [create_update_commands]; the second accumulator collects
    what it prints. *)
Fixpoint update_script_loop (w : World) (p : Porter) (todo : list string)
    (update_commands : list step) (printed : list string)
  : list step * list string :=
  match todo with
  | [] => (update_commands, printed)
  | update :: rest =>
      if negb (isfile w update) then
        update_script_loop w p rest update_commands
          (printed ++ ["ERROR: " ++ update ++ " does not exist!"])
      else
        update_script_loop w p rest
          (update_dest_loop p update (dest p) update_commands) printed
  end.

Definition create_update_commands (w : World) (p : Porter)
  : list step * list string :=
  update_script_loop w p (update_scripts p) [] [].

(** ** [do_portage], first half: building [cmd_list] *)

(** [get_temporary_file]: [n] counts the temporary files the process has
    made so far. *)
Definition get_temporary_file (w : World) (n : nat) (p : Porter)
  : string * nat * Porter :=
  let file_name := temp_name w n in
  (file_name, S n, set_temp_files p (temp_files p ++ [file_name])%list).

Record Plan := {
  plan_self : Porter;
  plan_temp_count : nat;
  plan_cmd_list : list step;
  plan_printed : list string
}.

(** The dump and load commands, with the temporary files they go through. *)
Definition transfer_commands (w : World) (n : nat) (p : Porter)
    (cmd_list : list step) : Porter * nat * list step :=
  if fetch_data p then
    if truthy (ignore_tables p) then
      let '(schema_file, n, p) := get_temporary_file w n p in
      let '(data_file, n, p) := get_temporary_file w n p in
      let cmd_list := (cmd_list ++ [create_dump_command p true schema_file])%list in
      let cmd_list := (cmd_list ++ create_load_commands p schema_file)%list in
      let cmd_list := (cmd_list ++ [create_dump_command p false data_file])%list in
      let cmd_list := (cmd_list ++ create_load_commands p data_file)%list in
      (p, n, cmd_list)
    else
      let '(schema_data_file, n, p) := get_temporary_file w n p in
      let cmd_list :=
        (cmd_list ++ [create_dump_command p false schema_data_file])%list in
      let cmd_list :=
        (cmd_list ++ create_load_commands p schema_data_file)%list in
      (p, n, cmd_list)
  else
    let '(schema_file, n, p) := get_temporary_file w n p in
    let cmd_list := (cmd_list ++ [create_dump_command p true schema_file])%list in
    let cmd_list := (cmd_list ++ create_load_commands p schema_file)%list in
    (p, n, cmd_list).

Definition plan_commands (w : World) (n : nat) (p : Porter) : result Plan :=
  let cmd_list : list step := [] in
  let cmd_list :=
    if create_dest_db p then (cmd_list ++ create_db_commands p)%list
    else cmd_list in
  cmd_list <-
    (if truthy (test_users p) then
       grants <- create_grant_commands p ;;
       Ok (cmd_list ++ grants)%list
     else Ok cmd_list) ;;
  let '(p, n, cmd_list) := transfer_commands w n p cmd_list in
  let '(cmd_list, printed) :=
    if truthy (update_scripts p) then
      let '(updates, printed) := create_update_commands w p in
      ((cmd_list ++ updates)%list, printed)
    else (cmd_list, []) in
  Ok {| plan_self := p; plan_temp_count := n;
        plan_cmd_list := cmd_list; plan_printed := printed |}.

(** ** [do_portage], second half: running [cmd_list] *)

(** [self.temp_files.remove(tf)]: the first equal element goes. *)
Fixpoint list_remove (tf : string) (l : list string) : list string :=
  match l with
  | [] => []
  | x :: rest => if String.eqb x tf then rest else x :: list_remove tf rest
  end.

(** The loop [for tf in self.temp_files: if tf in cmd[1]: remove(tf)].  A
    Python [for] over a list reads position [i] of the list as it is at that
    moment and stops when [i] is past its end; the list shrinks under the
    loop.  [fuel] bounds the number of rounds. *)
Fixpoint forget_loop (fuel i : nat) (cmd : string) (tfs : list string)
  : list string :=
  match fuel with
  | 0 => tfs
  | S fuel' =>
      match nth_error tfs i with
      | None => tfs
      | Some tf =>
          if contains tf cmd
          then forget_loop fuel' (S i) cmd (list_remove tf tfs)
          else forget_loop fuel' (S i) cmd tfs
      end
  end.

Definition forget_temp_files (cmd : string) (tfs : list string)
  : list string :=
  forget_loop (List.length tfs) 0 cmd tfs.

Record Run := {
  run_temp_files : list string;   (* [self.temp_files] *)
  run_printed : list string;      (* one entry per [print] *)
  run_spawned : list string       (* one entry per [Popen] *)
}.

Definition print_if (b : bool) (line : string) (st : Run) : Run :=
  if b then
    {| run_temp_files := run_temp_files st;
       run_printed := (run_printed st ++ [line])%list;
       run_spawned := run_spawned st |}
  else st.

(** [Popen(cmd[1], shell=True, stderr=PIPE)] and the test on its output. *)
Definition spawn (w : World) (p : Porter) (cmd : step) (st : Run) : Run :=
  let output := popen_stderr w (List.length (run_spawned st)) (snd cmd) in
  let st :=
    {| run_temp_files := run_temp_files st;
       run_printed := run_printed st;
       run_spawned := (run_spawned st ++ [snd cmd])%list |} in
  if contains "ERROR" output then
    let st := print_if (negb (debug p)) (snd cmd) st in
    let st := print_if true output st in
    {| run_temp_files := forget_temp_files (snd cmd) (run_temp_files st);
       run_printed := run_printed st;
       run_spawned := run_spawned st |}
  else st.

(** The body of [for cmd in cmd_list]. *)
Definition run_step (w : World) (p : Porter) (st : Run) (cmd : step) : Run :=
  let st := print_if (negb (quiet p)) (fst cmd) st in
  let st := print_if (debug p || dry_run p) (snd cmd) st in
  let st := if negb (dry_run p) then spawn w p cmd st else st in
  print_if (negb (quiet p)) ("-------------------" ++ nl) st.

Definition run_steps (w : World) (p : Porter) (cmd_list : list step)
    (st : Run) : Run :=
  fold_left (run_step w p) cmd_list st.

(** What a run did.  The temporary files were made by the run itself, so
    [os.remove] is taken to succeed on each of them. *)
Record Outcome := {
  printed : list string;    (* the console, one entry per [print] *)
  spawned : list string;    (* the commands given to the shell, in order *)
  removed : list string;    (* the paths given to [os.remove], in order *)
  kept : list string        (* [self.temp_files] when the run ends *)
}.

Definition banner (p : Porter) : string :=
  if dry_run p then
    "===============" ++ nl ++ "Starting portage DRY RUN" ++ nl ++
    "==============="
  else
    "===============" ++ nl ++ "Starting portage" ++ nl ++ "===============".

(** From the first banner to the end of [do_portage]; [already] is what the
    planning printed before. *)
Definition execute (w : World) (p : Porter) (cmd_list : list step)
    (already : list string) : Outcome :=
  let st := {| run_temp_files := temp_files p; run_printed := already;
               run_spawned := [] |} in
  let st := print_if (negb (quiet p)) (banner p) st in
  let st := run_steps w p cmd_list st in
  let st := print_if (negb (debug p) && negb (quiet p))
              "Removing temp files..." st in
  let gone := if negb (debug p) then run_temp_files st else [] in
  let st := print_if (negb (quiet p)) ("Portage complete!" ++ nl ++ nl) st in
  {| printed := run_printed st; spawned := run_spawned st;
     removed := gone; kept := run_temp_files st |}.

Definition do_portage (w : World) (n : nat) (p : Porter) : result Outcome :=
  plan <- plan_commands w n p ;;
  Ok (execute w (plan_self plan) (plan_cmd_list plan) (plan_printed plan)).

(** ** Vocabulary of the statements *)

(** The exclusion flags of a list of tables, one after the other. *)
Definition ignore_flags (src_name : string) (tables : list string) : string :=
  fold_right append "" (map (ignore_flag src_name) tables).

(** The text of a dump command around its mode flag and its exclusions. *)
Definition dump_text (p : Porter) (mode exclusions output_file : string)
  : string :=
  str_opt (mysqldump p) ++ " --lock-tables=false --routines=true " ++ mode ++
  " " ++ exclusions ++ " --result-file=" ++ output_file ++ " -h" ++
  host (source p) ++ " -u" ++ user (source p) ++ " -p" ++
  password (source p) ++ " " ++ name (source p).

(** One dump/load cycle through a file: the dump, then a load per
    destination. *)
Definition cycle (p : Porter) (schema_only : bool) (file : string)
  : list step :=
  create_dump_command p schema_only file :: map (load_step p file) (dest p).

(** The four phases of a plan. *)
Definition creation_steps (p : Porter) : list step :=
  if create_dest_db p then map (create_db_step p) (dest p) else [].

Definition level_of (tu : test_user) : option string :=
  match tu_permissions tu with
  | PermStr s => Some s
  | _ => None
  end.

Definition grant_steps (p : Porter) : list step :=
  flat_map
    (fun tu =>
       map (grant_step p tu (level_of tu) (privileges_of (level_of tu)))
         (dest p))
    (test_users p).

Definition update_steps (w : World) (p : Porter) : list step :=
  flat_map (fun update => map (update_step p update) (dest p))
    (filter (isfile w) (update_scripts p)).

Definition update_diagnostics (w : World) (p : Porter) : list string :=
  map (fun update => "ERROR: " ++ update ++ " does not exist!")
    (filter (fun update => negb (isfile w update)) (update_scripts p)).

(** The dump and load steps of a plan and the temporary files they go
    through, [n] files having been made before. *)
Definition transfer_steps (w : World) (n : nat) (p : Porter) : list step :=
  if fetch_data p then
    if truthy (ignore_tables p) then
      (cycle p true (temp_name w n) ++ cycle p false (temp_name w (S n)))%list
    else cycle p false (temp_name w n)
  else cycle p true (temp_name w n).

Definition transfer_files (w : World) (n : nat) (p : Porter) : list string :=
  if (fetch_data p && truthy (ignore_tables p))%bool
  then [temp_name w n; temp_name w (S n)]
  else [temp_name w n].

(** Every test user has a [permissions] entry (possibly null). *)
Definition users_have_permissions (p : Porter) : Prop :=
  forall tu, In tu (test_users p) -> tu_permissions tu <> PermAbsent.

(** A step failed when its error stream has the marker; [k] is its
    position among the spawned commands. *)
Definition failed (w : World) (k : nat) (cmd : step) : bool :=
  contains "ERROR" (popen_stderr w k (snd cmd)).

(** The commands of the failed steps, counting positions from [k]. *)
Fixpoint failed_commands (w : World) (k : nat) (cmd_list : list step)
  : list string :=
  match cmd_list with
  | [] => []
  | cmd :: rest =>
      if failed w k cmd then snd cmd :: failed_commands w (S k) rest
      else failed_commands w (S k) rest
  end.

(** A file that none of the given command texts mentions. *)
Definition unmentioned (cmds : list string) (tf : string) : bool :=
  negb (existsb (contains tf) cmds).

(** No command text mentions two different temporary files. *)
Definition one_file_per_command (tfs : list string) (cmd_list : list step)
  : Prop :=
  forall cmd a b,
    In cmd cmd_list -> In a tfs -> In b tfs ->
    contains a (snd cmd) = true -> contains b (snd cmd) = true -> a = b.

Definition with_fetch_data (pi : port_info) (v : option bool) : port_info :=
  {| pi_source := pi_source pi; pi_dest := pi_dest pi;
     pi_create_dest_db := pi_create_dest_db pi;
     pi_test_users := pi_test_users pi;
     pi_fetch_data := v;
     pi_ignore_tables := pi_ignore_tables pi;
     pi_update := pi_update pi |}.

(** ** A sample job *)

Module Sample.

Definition src : conn :=
  {| host := "sh"; user := "su"; password := "sp"; name := "sdb" |}.

Definition dst : conn :=
  {| host := "dh"; user := "du"; password := "dp"; name := "ddb" |}.

Definition dst2 : conn :=
  {| host := "eh"; user := "eu"; password := "ep"; name := "edb" |}.

Definition tester (perm : perm_field) : test_user :=
  {| tu_user := "t"; tu_password := "tp"; tu_permissions := perm |}.

(** Both clients are installed in [/usr/bin]; [fix.sql] exists and
    [missing.sql] does not; the command that writes the first temporary file
    fails. *)
Definition world : World :=
  {| env_PATH := "/usr/local/bin:/usr/bin";
     is_exe := fun f =>
       (String.eqb f "/usr/bin/mysqldump" || String.eqb f "/usr/bin/mysql")%bool;
     isfile := fun f => String.eqb f "fix.sql";
     temp_name := fun n =>
       match n with
       | 0 => "/tmp/tmpA.sql"
       | _ => "/tmp/tmpB.sql"
       end;
     popen_stderr := fun _ c =>
       if contains "--result-file=/tmp/tmpA.sql" c
       then "ERROR 1045 (28000): Access denied"
       else "" |}.

(** The same machine without the [mysql] client. *)
Definition world_no_mysql : World :=
  {| env_PATH := env_PATH world;
     is_exe := fun f => String.eqb f "/usr/bin/mysqldump";
     isfile := isfile world;
     temp_name := temp_name world;
     popen_stderr := popen_stderr world |}.

Definition job (users : list test_user) (fetch : option bool)
    (ignored : list string) (updates : list string) : port_info :=
  {| pi_source := src; pi_dest := DestList [dst; dst2];
     pi_create_dest_db := Some true;
     pi_test_users := Some users;
     pi_fetch_data := fetch;
     pi_ignore_tables := Some ignored;
     pi_update := Some updates |}.

Definition porter (q dbg dry : bool) (pi : port_info) : Porter :=
  set_variables pi q dbg dry (Some "/usr/bin/mysqldump")
    (Some "/usr/bin/mysql").

(** A job with a test user, two ignored tables and two update scripts, one
    of them missing; [fetch_data] is not given. *)
Definition busy : Porter :=
  porter false false false
    (job [tester PermNull] None ["logs"; "audit"] ["missing.sql"; "fix.sql"]).

End Sample.

(** ** The loop over the jobs of a configuration *)

(** One entry of [portages] with its [db_type] key: [None] when the key is
    not in the mapping.  A value that is not the string [mysql] selects no
    engine, whatever it is. *)
Record portage := {
  db_type : option string;
  job_info : port_info
}.

(** ['db_type' not in portage or portage['db_type'] == 'mysql'] *)
Definition supported (j : portage) : bool :=
  match db_type j with
  | None => true
  | Some t => String.eqb t "mysql"
  end.

(** What the loop has done so far.  [uncaught] is the exception that ended
    the program, if one did: the loop catches parse errors only. *)
Record Session := {
  console : list string;
  launched : list string;
  deleted : list string;
  uncaught : option exn
}.

Definition new_session : Session :=
  {| console := []; launched := []; deleted := []; uncaught := None |}.

Definition after_job (s : Session) (o : Outcome) : Session :=
  {| console := (console s ++ printed o)%list;
     launched := (launched s ++ spawned o)%list;
     deleted := (deleted s ++ removed o)%list;
     uncaught := uncaught s |}.

Definition after_print (s : Session) (line : string) : Session :=
  {| console := (console s ++ [line])%list;
     launched := launched s;
     deleted := deleted s;
     uncaught := uncaught s |}.

Definition after_raise (s : Session) (e : exn) : Session :=
  {| console := console s; launched := launched s; deleted := deleted s;
     uncaught := Some e |}.

(** [for portage in cfg['portages']]: the body builds the porter and calls
    [do_portage], whose two halves are written out here so that the count
    of temporary files made so far goes on to the next job.  The commands
    of each job are numbered from zero for [popen_stderr]. *)
Fixpoint portages_loop (w : World) (q dbg dry : bool) (todo : list portage)
    (n : nat) (s : Session) : Session :=
  match todo with
  | [] => s
  | j :: rest =>
      if supported j then
        match MySQLPorter_init w (job_info j) q dbg dry with
        | Raise e => after_raise s e
        | Ok porter =>
            match plan_commands w n porter with
            | Raise e => after_raise s e
            | Ok plan =>
                portages_loop w q dbg dry rest (plan_temp_count plan)
                  (after_job s
                     (execute w (plan_self plan) (plan_cmd_list plan)
                        (plan_printed plan)))
            end
        end
      else
        portages_loop w q dbg dry rest n
          (after_print s "Only MySQL portages supported")
  end.

(** ** More vocabulary *)

(** The candidate path [which] tries for an entry of the [PATH]. *)
Definition candidate (program os_path : string) : string :=
  path_join (strip dquote_char os_path) program.

(** No step of the list reports an error, positions counted from [k]. *)
Definition clean_run (w : World) (cmd_list : list step) : Prop :=
  forall k cmd,
    nth_error cmd_list k = Some cmd ->
    contains "ERROR" (popen_stderr w k (snd cmd)) = false.

(** The same porter with other mode flags. *)
Definition with_modes (p : Porter) (q dbg dry : bool) : Porter :=
  {| quiet := q; debug := dbg; dry_run := dry;
     source := source p; dest := dest p; test_users := test_users p;
     create_dest_db := create_dest_db p; fetch_data := fetch_data p;
     ignore_tables := ignore_tables p; temp_files := temp_files p;
     update_scripts := update_scripts p;
     mysqldump := mysqldump p; mysql := mysql p |}.

(** Proof step: the test users of a concrete porter all have their entry. *)
Ltac listed_users :=
  let tu := fresh "tu" in
  let Hin := fresh "Hin" in
  intros tu Hin; cbn in Hin;
  repeat (destruct Hin as [<-|Hin]; [discriminate |]);
  destruct Hin.

(** * Properties *)

(** ** Strings *)

Lemma append_assoc (a b c : string) : (a ++ b) ++ c = a ++ (b ++ c).
Proof.
  induction a as [|x a IH]; simpl; [reflexivity | now rewrite IH].
Qed.

Lemma append_empty_r (a : string) : a ++ "" = a.
Proof.
  induction a as [|x a IH]; simpl; [reflexivity | now rewrite IH].
Qed.

Lemma prefix_append (s t : string) : prefix s (s ++ t) = true.
Proof.
  induction s as [|x s IH]; simpl.
  - now destruct t.
  - destruct (ascii_dec x x) as [_|ne]; [exact IH | now elim ne].
Qed.

Lemma contains_of_prefix (s u : string) :
  prefix s u = true -> contains s u = true.
Proof. destruct u; simpl; intros ->; reflexivity. Qed.

Lemma contains_here (s t : string) : contains s (s ++ t) = true.
Proof. apply contains_of_prefix, prefix_append. Qed.

Lemma contains_skip (s a t : string) :
  contains s t = true -> contains s (a ++ t) = true.
Proof.
  intros H. induction a as [|x a IH]; simpl; [exact H |].
  rewrite IH. apply orb_true_r.
Qed.

(** A string occurs in whatever is built around it. *)
Lemma contains_middle (s a b : string) : contains s (a ++ s ++ b) = true.
Proof. apply contains_skip, contains_here. Qed.

(** ** The loops of the renderer build what they look like *)

#[local] Arguments String.append : simpl never.

Lemma ignored_tables_loop_spec (src_name : string) (todo : list string) :
  forall acc,
    ignored_tables_loop src_name todo acc = acc ++ ignore_flags src_name todo.
Proof.
  unfold ignore_flags.
  induction todo as [|t todo IH]; intros acc; simpl.
  - now rewrite append_empty_r.
  - rewrite IH. now rewrite append_assoc.
Qed.

Lemma create_load_loop_spec (p : Porter) (f : string) (todo : list conn) :
  forall acc,
    create_load_loop p f todo acc = (acc ++ map (load_step p f) todo)%list.
Proof.
  induction todo as [|d todo IH]; intros acc; simpl.
  - now rewrite app_nil_r.
  - now rewrite IH, <- app_assoc.
Qed.

Lemma create_db_loop_spec (p : Porter) (todo : list conn) :
  forall acc,
    create_db_loop p todo acc = (acc ++ map (create_db_step p) todo)%list.
Proof.
  induction todo as [|d todo IH]; intros acc; simpl.
  - now rewrite app_nil_r.
  - now rewrite IH, <- app_assoc.
Qed.

Lemma grant_dest_loop_spec (p : Porter) (tu : test_user)
    (level : option string) (perms : string) (todo : list conn) :
  forall acc,
    grant_dest_loop p tu level perms todo acc
    = (acc ++ map (grant_step p tu level perms) todo)%list.
Proof.
  induction todo as [|d todo IH]; intros acc; simpl.
  - now rewrite app_nil_r.
  - now rewrite IH, <- app_assoc.
Qed.

Lemma update_dest_loop_spec (p : Porter) (update : string)
    (todo : list conn) :
  forall acc,
    update_dest_loop p update todo acc
    = (acc ++ map (update_step p update) todo)%list.
Proof.
  induction todo as [|d todo IH]; intros acc; simpl.
  - now rewrite app_nil_r.
  - now rewrite IH, <- app_assoc.
Qed.

Lemma create_load_commands_spec (p : Porter) (f : string) :
  create_load_commands p f = map (load_step p f) (dest p).
Proof. unfold create_load_commands. now rewrite create_load_loop_spec. Qed.

Lemma create_db_commands_spec (p : Porter) :
  create_db_commands p = map (create_db_step p) (dest p).
Proof. unfold create_db_commands. now rewrite create_db_loop_spec. Qed.

Lemma lookup_permissions_present (tu : test_user) :
  tu_permissions tu <> PermAbsent ->
  lookup_permissions tu = Ok (level_of tu).
Proof.
  unfold lookup_permissions, level_of.
  destruct (tu_permissions tu); [now intros [] | reflexivity | reflexivity].
Qed.

Lemma grant_user_loop_spec (p : Porter) (todo : list test_user) :
  (forall tu, In tu todo -> tu_permissions tu <> PermAbsent) ->
  forall acc,
    grant_user_loop p todo acc
    = Ok (acc ++
          flat_map
            (fun tu =>
               map (grant_step p tu (level_of tu)
                      (privileges_of (level_of tu))) (dest p)) todo)%list.
Proof.
  induction todo as [|tu todo IH]; intros ok acc; simpl.
  - now rewrite app_nil_r.
  - rewrite lookup_permissions_present by (apply ok; now left). simpl.
    rewrite IH by (intros u Hu; apply ok; now right).
    now rewrite grant_dest_loop_spec, <- app_assoc.
Qed.

Lemma create_grant_commands_spec (p : Porter) :
  users_have_permissions p -> create_grant_commands p = Ok (grant_steps p).
Proof.
  intros ok. unfold create_grant_commands, grant_steps.
  now rewrite grant_user_loop_spec.
Qed.

(** A user without the entry stops the loop, whatever comes after. *)
Lemma grant_user_loop_absent (p : Porter) (todo : list test_user) :
  (exists tu, In tu todo /\ tu_permissions tu = PermAbsent) ->
  forall acc, grant_user_loop p todo acc = Raise (KeyError "permissions").
Proof.
  induction todo as [|tu todo IH]; intros [u [Hin Habs]] acc.
  - destruct Hin.
  - simpl. unfold lookup_permissions.
    destruct (tu_permissions tu) eqn:E; simpl; try reflexivity;
      (apply IH; destruct Hin as [->|Hin];
       [congruence | now exists u]).
Qed.

Lemma update_script_loop_spec (w : World) (p : Porter) (todo : list string) :
  forall acc out,
    update_script_loop w p todo acc out
    = ((acc ++
        flat_map (fun update => map (update_step p update) (dest p))
          (filter (isfile w) todo))%list,
       (out ++
        map (fun update => ("ERROR: " ++ update ++ " does not exist!")%string)
          (filter (fun update => negb (isfile w update)) todo))%list).
Proof.
  induction todo as [|u todo IH]; intros acc out; simpl.
  - now rewrite !app_nil_r.
  - destruct (isfile w u); simpl; rewrite IH.
    + now rewrite update_dest_loop_spec, <- app_assoc.
    + now rewrite <- app_assoc.
Qed.

Lemma create_update_commands_spec (w : World) (p : Porter) :
  create_update_commands w p = (update_steps w p, update_diagnostics w p).
Proof.
  unfold create_update_commands. now rewrite update_script_loop_spec.
Qed.

Lemma create_dump_command_text (p : Porter) (schema_only : bool)
    (file : string) :
  snd (create_dump_command p schema_only file)
  = dump_text p (data_flag p schema_only)
      (ignore_flags (name (source p)) (ignore_tables p)) file.
Proof.
  unfold create_dump_command, dump_text. simpl.
  rewrite ignored_tables_loop_spec. simpl.
  now rewrite !append_assoc.
Qed.

(** ** The plan, phase by phase *)

Lemma transfer_commands_spec (w : World) (n : nat) (p : Porter)
    (cmd_list : list step) :
  transfer_commands w n p cmd_list
  = (set_temp_files p (temp_files p ++ transfer_files w n p)%list,
     n + List.length (transfer_files w n p),
     (cmd_list ++ transfer_steps w n p)%list).
Proof.
  unfold transfer_commands, transfer_steps, transfer_files, cycle,
    get_temporary_file.
  destruct (fetch_data p) eqn:Ef; [destruct (truthy (ignore_tables p)) eqn:Ei |];
    cbn [andb]; rewrite ?create_load_commands_spec;
    (f_equal; [f_equal |]);
    first [ reflexivity
          | cbn [List.length]; lia
          | rewrite <- !app_assoc; reflexivity
          | unfold set_temp_files; cbn; now rewrite <- app_assoc ].
Qed.

Lemma plan_commands_spec (w : World) (n : nat) (p : Porter) :
  users_have_permissions p ->
  plan_commands w n p
  = Ok {| plan_self :=
            set_temp_files p (temp_files p ++ transfer_files w n p)%list;
          plan_temp_count := n + List.length (transfer_files w n p);
          plan_cmd_list :=
            (creation_steps p ++ grant_steps p ++ transfer_steps w n p ++
             update_steps w p)%list;
          plan_printed := update_diagnostics w p |}.
Proof.
  intros ok. unfold plan_commands.
  assert (G : (if truthy (test_users p)
               then grants <- create_grant_commands p ;;
                    Ok ((if create_dest_db p
                         then ([] ++ create_db_commands p)%list
                         else []) ++ grants)%list
               else Ok (if create_dest_db p
                        then ([] ++ create_db_commands p)%list
                        else []))
              = Ok (creation_steps p ++ grant_steps p)%list).
  { rewrite create_grant_commands_spec by exact ok.
    unfold creation_steps, grant_steps. rewrite create_db_commands_spec.
    destruct (test_users p); cbn [truthy bind flat_map app];
      [now rewrite app_nil_r | reflexivity]. }
  rewrite G. cbn [bind]. rewrite transfer_commands_spec.
  rewrite create_update_commands_spec.
  unfold update_steps, update_diagnostics.
  cbn [update_scripts dest set_temp_files].
  destruct (update_scripts p); cbn [truthy filter flat_map map];
    rewrite <- ?app_assoc, ?app_nil_r; reflexivity.
Qed.

(** ** Forgetting the files of a failed step *)

Lemma list_remove_length (tf : string) (l : list string) :
  List.length (list_remove tf l) <= List.length l.
Proof.
  induction l as [|x l IH]; cbn [list_remove List.length]; [lia |].
  destruct (String.eqb x tf); cbn [List.length]; lia.
Qed.

(** The bound on the rounds is never what stops the loop. *)
Lemma forget_loop_fuel (cmd : string) (fuel : nat) :
  forall i l extra,
    List.length l <= i + fuel ->
    forget_loop (fuel + extra) i cmd l = forget_loop fuel i cmd l.
Proof.
  induction fuel as [|fuel IH]; intros i l extra Hlen.
  - assert (E : nth_error l i = None) by (apply nth_error_None; lia).
    destruct extra; cbn [Nat.add forget_loop]; [reflexivity | now rewrite E].
  - cbn [Nat.add forget_loop].
    destruct (nth_error l i) as [tf|]; [| reflexivity].
    destruct (contains tf cmd); apply IH;
      [pose proof (list_remove_length tf l) |]; lia.
Qed.

Lemma forget_loop_unmentioned (cmd : string) (fuel : nat) :
  forall i l,
    (forall x, In x l -> contains x cmd = false) ->
    forget_loop fuel i cmd l = l.
Proof.
  induction fuel as [|fuel IH]; intros i l Hno; cbn [forget_loop];
    [reflexivity |].
  destruct (nth_error l i) as [tf|] eqn:E; [| reflexivity].
  rewrite (Hno tf (nth_error_In _ _ E)). now apply IH.
Qed.

Lemma filter_keeps_all {A} (f : A -> bool) (l : list A) :
  (forall x, In x l -> f x = true) -> filter f l = l.
Proof.
  induction l as [|x l IH]; intros H; cbn [filter]; [reflexivity |].
  rewrite (H x (or_introl eq_refl)), IH; [reflexivity |].
  intros y Hy. apply H. now right.
Qed.

Lemma filter_filter {A} (f g : A -> bool) (l : list A) :
  filter f (filter g l) = filter (fun x => g x && f x) l.
Proof.
  induction l as [|x l IH]; cbn [filter]; [reflexivity |].
  destruct (g x); cbn [filter andb]; [destruct (f x) |]; now rewrite IH.
Qed.

(** When one file of the list is mentioned and no other, removing it is
    the same as dropping the mentioned files. *)
Lemma list_remove_filter (cmd tf : string) (l : list string) :
  NoDup l ->
  contains tf cmd = true ->
  (forall x, In x l -> contains x cmd = true -> x = tf) ->
  In tf l ->
  list_remove tf l = filter (fun x => negb (contains x cmd)) l.
Proof.
  intros nd Htf Honly. induction l as [|x l IH]; intros Hin; [destruct Hin |].
  inversion nd as [|? ? Hx nd']; subst.
  cbn [list_remove filter]. destruct (String.eqb_spec x tf) as [->|ne].
  - rewrite Htf. cbn [negb]. symmetry. apply filter_keeps_all.
    intros y Hy. destruct (contains y cmd) eqn:E; [| reflexivity].
    exfalso. apply Hx. rewrite <- (Honly y (or_intror Hy) E). exact Hy.
  - destruct (contains x cmd) eqn:E.
    + elim ne. apply Honly; [now left | exact E].
    + cbn [negb]. f_equal. apply IH; [exact nd' | |].
      * intros y Hy. apply Honly. now right.
      * destruct Hin as [->|Hin]; [now elim ne | exact Hin].
Qed.

Lemma firstn_snoc (l : list string) :
  forall i tf, nth_error l i = Some tf ->
    firstn (S i) l = (firstn i l ++ [tf])%list.
Proof.
  induction l as [|x l IH]; intros [|i] tf E; try discriminate.
  - now inversion E.
  - cbn [nth_error] in E. change (firstn (S (S i)) (x :: l))
      with (x :: firstn (S i) l).
    now rewrite (IH i tf E).
Qed.

Lemma forget_loop_filter (cmd : string) (fuel : nat) :
  forall i l,
    NoDup l ->
    (forall a b, In a l -> In b l ->
       contains a cmd = true -> contains b cmd = true -> a = b) ->
    (forall x, In x (firstn i l) -> contains x cmd = false) ->
    List.length l <= i + fuel ->
    forget_loop fuel i cmd l = filter (fun x => negb (contains x cmd)) l.
Proof.
  assert (past : forall i l,
             (forall x, In x (firstn i l) -> contains x cmd = false) ->
             List.length l <= i ->
             l = filter (fun x => negb (contains x cmd)) l).
  { intros i l Hseen Hlen. symmetry. apply filter_keeps_all.
    intros x Hx. rewrite firstn_all2 in Hseen by exact Hlen.
    now rewrite (Hseen x Hx). }
  induction fuel as [|fuel IH]; intros i l nd Hone Hseen Hlen;
    cbn [forget_loop].
  - apply (past i); [exact Hseen | lia].
  - destruct (nth_error l i) as [tf|] eqn:E.
    + pose proof (nth_error_In _ _ E) as Hin.
      destruct (contains tf cmd) eqn:Htf.
      * assert (R : list_remove tf l
                    = filter (fun x => negb (contains x cmd)) l).
        { apply list_remove_filter; auto. }
        rewrite R. apply forget_loop_unmentioned.
        intros x Hx. apply filter_In in Hx. destruct Hx as [_ Hx].
        now destruct (contains x cmd).
      * apply IH; auto; [| lia].
        intros x Hx. rewrite (firstn_snoc l i tf E) in Hx.
        apply in_app_or in Hx. destruct Hx as [Hx|[<-|[]]]; auto.
    + apply (past i); [exact Hseen |]. now apply nth_error_None.
Qed.

Lemma forget_temp_files_spec (cmd : string) (l : list string) :
  NoDup l ->
  (forall a b, In a l -> In b l ->
     contains a cmd = true -> contains b cmd = true -> a = b) ->
  forget_temp_files cmd l = filter (fun x => negb (contains x cmd)) l.
Proof.
  intros nd Hone. unfold forget_temp_files.
  apply forget_loop_filter; auto; first [lia | intros x []].
Qed.

(** ** Running the steps *)

Lemma run_step_effects (w : World) (p : Porter) (st : Run) (cmd : step) :
  dry_run p = false ->
  run_temp_files (run_step w p st cmd)
  = (if failed w (List.length (run_spawned st)) cmd
     then forget_temp_files (snd cmd) (run_temp_files st)
     else run_temp_files st)
  /\ run_spawned (run_step w p st cmd) = (run_spawned st ++ [snd cmd])%list.
Proof.
  intros Hdry. unfold run_step, spawn, failed, print_if. rewrite Hdry.
  destruct (quiet p), (debug p); cbn [negb orb run_spawned run_temp_files];
    destruct (contains "ERROR" _); split; reflexivity.
Qed.

Lemma one_file_per_command_shrink (l l' : list string) (c : step)
    (cmds : list step) :
  (forall x, In x l' -> In x l) ->
  one_file_per_command l (c :: cmds) ->
  one_file_per_command l' cmds.
Proof.
  intros sub H cmd a b Hc Ha Hb. apply (H cmd); auto. now right.
Qed.

Lemma run_steps_effects (w : World) (p : Porter) (cmds : list step) :
  dry_run p = false ->
  forall st,
    NoDup (run_temp_files st) ->
    one_file_per_command (run_temp_files st) cmds ->
    run_temp_files (run_steps w p cmds st)
    = filter
        (unmentioned (failed_commands w (List.length (run_spawned st)) cmds))
        (run_temp_files st)
    /\ run_spawned (run_steps w p cmds st)
       = (run_spawned st ++ map snd cmds)%list.
Proof.
  intros Hdry. unfold run_steps.
  induction cmds as [|c cmds IH]; intros st nd Hone;
    cbn [fold_left failed_commands map].
  - split; [| now rewrite app_nil_r].
    symmetry. now apply filter_keeps_all.
  - destruct (run_step_effects w p st c Hdry) as [Ht Hs].
    assert (F : forget_temp_files (snd c) (run_temp_files st)
                = filter (fun x => negb (contains x (snd c)))
                    (run_temp_files st)).
    { apply forget_temp_files_spec; [exact nd |].
      intros a b Ha Hb. apply (Hone c); auto. now left. }
    assert (len : List.length (run_spawned (run_step w p st c))
                  = S (List.length (run_spawned st))).
    { rewrite Hs, length_app. cbn [List.length]. lia. }
    destruct (IH (run_step w p st c)) as [IHt IHs].
    + rewrite Ht. destruct (failed w _ c); [rewrite F; now apply NoDup_filter
                                           | exact nd].
    + apply one_file_per_command_shrink with (l := run_temp_files st) (c := c);
        [| exact Hone].
      rewrite Ht. destruct (failed w _ c); [rewrite F | auto].
      intros x Hx. now apply filter_In in Hx.
    + rewrite IHt, IHs, len, Hs, Ht, <- app_assoc. split; [| reflexivity].
      destruct (failed w _ c); [| reflexivity].
      rewrite F, filter_filter. apply filter_ext. intros x.
      unfold unmentioned. cbn [existsb]. now rewrite negb_orb.
Qed.

Lemma execute_effects (w : World) (p : Porter) (cmds : list step)
    (already : list string) :
  dry_run p = false ->
  NoDup (temp_files p) ->
  one_file_per_command (temp_files p) cmds ->
  kept (execute w p cmds already)
  = filter (unmentioned (failed_commands w 0 cmds)) (temp_files p)
  /\ spawned (execute w p cmds already) = map snd cmds
  /\ removed (execute w p cmds already)
     = (if debug p then [] else kept (execute w p cmds already)).
Proof.
  intros Hdry nd Hone. unfold execute.
  set (st0 := print_if (negb (quiet p)) (banner p) _).
  assert (T0 : run_temp_files st0 = temp_files p)
    by (unfold st0, print_if; now destruct (quiet p)).
  assert (S0 : run_spawned st0 = [])
    by (unfold st0, print_if; now destruct (quiet p)).
  destruct (run_steps_effects w p cmds Hdry st0) as [Ht Hs];
    [now rewrite T0 | now rewrite T0 |].
  rewrite T0, S0 in Ht. rewrite S0 in Hs. cbn [List.length app] in Ht, Hs.
  unfold print_if.
  destruct (debug p), (quiet p); cbn [negb andb kept spawned removed
    run_temp_files run_spawned]; rewrite ?Ht, ?Hs; auto.
Qed.

(** The failed commands are the texts of the steps whose error stream has
    the marker. *)
Lemma failed_commands_In (w : World) (cmds : list step) :
  forall k0 x,
    In x (failed_commands w k0 cmds) <->
    exists k c, nth_error cmds k = Some c /\ failed w (k0 + k) c = true
                /\ x = snd c.
Proof.
  induction cmds as [|c cmds IH]; intros k0 x; cbn [failed_commands].
  - split; [intros [] | intros [[|k] [c [E _]]]; discriminate].
  - split.
    + intros H. destruct (failed w k0 c) eqn:F.
      * destruct H as [<-|H].
        -- exists 0, c. rewrite Nat.add_0_r. auto.
        -- apply IH in H. destruct H as [k [c' [E [F' ->]]]].
           exists (S k), c'. rewrite Nat.add_succ_r. auto.
      * apply IH in H. destruct H as [k [c' [E [F' ->]]]].
        exists (S k), c'. rewrite Nat.add_succ_r. auto.
    + intros [[|k] [c' [E [F ->]]]]; cbn [nth_error] in E.
      * inversion E; subst. rewrite Nat.add_0_r in F. rewrite F. now left.
      * assert (In (snd c') (failed_commands w (S k0) cmds)).
        { apply IH. exists k, c'. rewrite Nat.add_succ_r in F. auto. }
        destruct (failed w k0 c); [now right | assumption].
Qed.

(** * The claims *)

Import Sample.

(** C1.  The claim: tables in [ignore_tables] are left out of the bulk data
    copy only, so the text of a schema-only dump does not depend on them.
    The renderer appends the exclusion flags whatever the mode: for the
    sample job with [fetch_data: false] and [ignore_tables: [logs]] the
    schema-only dump carries [--ignore-table=sdb.logs], differs from the
    dump of the same job without ignored tables, and is the dump the plan
    runs. *)
Theorem schema_dump_carries_ignore_flags :
  let p := porter false false false (job [] (Some false) ["logs"] []) in
  let p0 := porter false false false (job [] (Some false) [] []) in
  snd (create_dump_command p true "/tmp/tmpA.sql")
  = "/usr/bin/mysqldump --lock-tables=false --routines=true --no-data --ignore-table=sdb.logs  --result-file=/tmp/tmpA.sql -hsh -usu -psp sdb"
  /\ snd (create_dump_command p0 true "/tmp/tmpA.sql")
     = "/usr/bin/mysqldump --lock-tables=false --routines=true --no-data  --result-file=/tmp/tmpA.sql -hsh -usu -psp sdb"
  /\ snd (create_dump_command p true "/tmp/tmpA.sql")
     <> snd (create_dump_command p0 true "/tmp/tmpA.sql")
  /\ exists pl,
       plan_commands world 0 p = Ok pl /\
       nth_error (plan_cmd_list pl) 2
       = Some (create_dump_command p true "/tmp/tmpA.sql").
Proof.
  cbv zeta. repeat split; try reflexivity.
  - intros H. vm_compute in H. discriminate H.
  - eexists. split; [vm_compute; reflexivity | reflexivity].
Qed.

(** C3.  The claim: building the adapter raises when either client is
    missing.  On a machine with [mysqldump] and without [mysql], [which]
    finds the first and not the second, the constructor returns a porter all
    the same, whose [mysql] is [None], and the load commands it renders
    start with the text [None]. *)
Theorem init_succeeds_without_mysql :
  which world_no_mysql "mysqldump" = Some "/usr/bin/mysqldump"
  /\ which world_no_mysql "mysql" = None
  /\ exists p,
       MySQLPorter_init world_no_mysql (job [] None [] []) false false false
       = Ok p
       /\ mysql p = None
       /\ map snd (create_load_commands p "/tmp/tmpA.sql")
          = ["None -hdh -udu -pdp ddb < /tmp/tmpA.sql";
             "None -heh -ueu -pep edb < /tmp/tmpA.sql"].
Proof.
  split; [reflexivity | split; [reflexivity |]].
  eexists. split; [vm_compute; reflexivity | split; reflexivity].
Qed.

(** C7.  The claim: in quiet mode nothing is printed.  With [quiet] set, a
    live run of the sample job prints the diagnostic of the missing update
    script, then the failed command and its error text; a dry run prints
    every command. *)
Theorem quiet_run_still_prints :
  (exists o,
     do_portage world 0
       (porter true false false (job [] (Some false) [] ["missing.sql"]))
     = Ok o
     /\ printed o
        = ["ERROR: missing.sql does not exist!";
           "/usr/bin/mysqldump --lock-tables=false --routines=true --no-data  --result-file=/tmp/tmpA.sql -hsh -usu -psp sdb";
           "ERROR 1045 (28000): Access denied"])
  /\ (exists o,
        do_portage world 0 (porter true false true (job [] (Some false) [] []))
        = Ok o
        /\ spawned o = []
        /\ printed o
           = ["/usr/bin/mysql -hdh -udu -pdp -e 'DROP DATABASE IF EXISTS ddb; CREATE DATABASE ddb;'";
              "/usr/bin/mysql -heh -ueu -pep -e 'DROP DATABASE IF EXISTS edb; CREATE DATABASE edb;'";
              "/usr/bin/mysqldump --lock-tables=false --routines=true --no-data  --result-file=/tmp/tmpA.sql -hsh -usu -psp sdb";
              "/usr/bin/mysql -hdh -udu -pdp ddb < /tmp/tmpA.sql";
              "/usr/bin/mysql -heh -ueu -pep edb < /tmp/tmpA.sql"]).
Proof.
  split; eexists; (split; [vm_compute; reflexivity | repeat split]).
Qed.

(** C6, as stated, fails for a test user whose mapping has no [permissions]
    key: looking the key up raises, so no grant command is rendered for
    that user, read-only or other, and the job stops before anything is
    run. *)
Lemma unset_permissions_render_no_grant :
  let p := porter false false false
             (job [tester PermAbsent] (Some false) [] []) in
  create_grant_commands p = Raise (KeyError "permissions")
  /\ ~ (exists grants, create_grant_commands p = Ok grants)
  /\ do_portage world 0 p = Raise (KeyError "permissions").
Proof.
  cbv zeta. split; [reflexivity | split; [| reflexivity]].
  intros [grants H]. vm_compute in H. discriminate H.
Qed.

(** C6, amended.  When every test user has a [permissions] entry, one grant
    command is rendered per user and destination, users first, and its
    privilege list is [ALL] for the level [admin], the five verbs for the
    level [write], and [SELECT] for any other entry, the null entry
    included.  When some test user has no [permissions] entry, rendering
    the grants raises [KeyError]. *)
Theorem grant_privileges_by_level (p : Porter) :
  (users_have_permissions p ->
   create_grant_commands p
   = Ok (flat_map
           (fun tu =>
              map (grant_step p tu (level_of tu) (privileges_of (level_of tu)))
                (dest p))
           (test_users p))
   /\ forall tu,
        In tu (test_users p) ->
        (tu_permissions tu = PermStr "admin" ->
         privileges_of (level_of tu) = "ALL")
        /\ (tu_permissions tu = PermStr "write" ->
            privileges_of (level_of tu)
            = "SELECT, INSERT, UPDATE, DELETE, EXECUTE")
        /\ (tu_permissions tu <> PermStr "admin" ->
            tu_permissions tu <> PermStr "write" ->
            privileges_of (level_of tu) = "SELECT"))
  /\ ((exists tu, In tu (test_users p) /\ tu_permissions tu = PermAbsent) ->
      create_grant_commands p = Raise (KeyError "permissions")).
Proof.
  split.
  - intros ok. split; [now apply create_grant_commands_spec |].
    intros tu _. unfold level_of, privileges_of.
    repeat split.
    + now intros ->.
    + now intros ->.
    + intros Ha Hw. destruct (tu_permissions tu) as [| |s]; try reflexivity.
      destruct (String.eqb_spec s "write") as [->|_]; [now elim Hw |].
      destruct (String.eqb_spec s "admin") as [->|_]; [now elim Ha |].
      reflexivity.
  - intros H. now apply grant_user_loop_absent.
Qed.

Lemma grant_privileges_by_level_witness :
  let p := porter false false false
             (job [tester (PermStr "admin"); tester PermNull;
                   tester (PermStr "write"); tester (PermStr "read")]
                (Some false) [] []) in
  users_have_permissions p
  /\ exists grants,
       create_grant_commands p = Ok grants
       /\ map snd grants
          = ["/usr/bin/mysql -hdh -udu -pdp -e " ++ dquote ++ "GRANT ALL on ddb.* to 't'@'%' IDENTIFIED BY 'tp'; FLUSH PRIVILEGES;" ++ dquote;
             "/usr/bin/mysql -heh -ueu -pep -e " ++ dquote ++ "GRANT ALL on edb.* to 't'@'%' IDENTIFIED BY 'tp'; FLUSH PRIVILEGES;" ++ dquote;
             "/usr/bin/mysql -hdh -udu -pdp -e " ++ dquote ++ "GRANT SELECT on ddb.* to 't'@'%' IDENTIFIED BY 'tp'; FLUSH PRIVILEGES;" ++ dquote;
             "/usr/bin/mysql -heh -ueu -pep -e " ++ dquote ++ "GRANT SELECT on edb.* to 't'@'%' IDENTIFIED BY 'tp'; FLUSH PRIVILEGES;" ++ dquote;
             "/usr/bin/mysql -hdh -udu -pdp -e " ++ dquote ++ "GRANT SELECT, INSERT, UPDATE, DELETE, EXECUTE on ddb.* to 't'@'%' IDENTIFIED BY 'tp'; FLUSH PRIVILEGES;" ++ dquote;
             "/usr/bin/mysql -heh -ueu -pep -e " ++ dquote ++ "GRANT SELECT, INSERT, UPDATE, DELETE, EXECUTE on edb.* to 't'@'%' IDENTIFIED BY 'tp'; FLUSH PRIVILEGES;" ++ dquote;
             "/usr/bin/mysql -hdh -udu -pdp -e " ++ dquote ++ "GRANT SELECT on ddb.* to 't'@'%' IDENTIFIED BY 'tp'; FLUSH PRIVILEGES;" ++ dquote;
             "/usr/bin/mysql -heh -ueu -pep -e " ++ dquote ++ "GRANT SELECT on edb.* to 't'@'%' IDENTIFIED BY 'tp'; FLUSH PRIVILEGES;" ++ dquote].
Proof.
  cbv zeta.
  assert (ok : users_have_permissions
                 (porter false false false
                    (job [tester (PermStr "admin"); tester PermNull;
                          tester (PermStr "write"); tester (PermStr "read")]
                       (Some false) [] []))).
  { intros tu Hin. cbn in Hin.
    repeat (destruct Hin as [<-|Hin]; [discriminate |]). destruct Hin. }
  split; [exact ok |].
  eexists. split.
  - exact (proj1 (proj1 (grant_privileges_by_level _) ok)).
  - vm_compute. reflexivity.
Defined.

(** Every listed table has its flag in the exclusions, and so in the text
    of the dump. *)
Lemma ignore_flags_split (src_name table : string) (tables : list string) :
  In table tables ->
  exists a b,
    ignore_flags src_name tables = a ++ ignore_flag src_name table ++ b.
Proof.
  unfold ignore_flags.
  induction tables as [|t l IH]; intros Hin; [destruct Hin |].
  cbn [map fold_right]. destruct Hin as [->|Hin].
  - exists "". eexists. reflexivity.
  - destruct (IH Hin) as [a [b E]]. rewrite E.
    exists (ignore_flag src_name t ++ a), b. now rewrite append_assoc.
Qed.

Lemma dump_text_contains_exclusion (p : Porter)
    (mode a s b file : string) :
  contains s (dump_text p mode (a ++ s ++ b) file) = true.
Proof.
  unfold dump_text. do 4 apply contains_skip.
  rewrite !append_assoc. apply contains_middle.
Qed.

(** C2.  With [fetch_data] true and a non-empty [ignore_tables], the plan
    succeeds and its data-transfer steps are two dump/load cycles: the
    schema dump into the first temporary file, a load of that file per
    destination, the data dump into the second temporary file, a load of
    that file per destination.  The text of the data dump has the mode
    [--no-create-info --complete-insert] and, as its exclusions, exactly the
    flags of the listed tables in their order; each of these flags occurs
    in the text. *)
Theorem selective_transfer_two_cycles (w : World) (n : nat) (p : Porter) :
  users_have_permissions p ->
  fetch_data p = true ->
  ignore_tables p <> [] ->
  let schema_file := temp_name w n in
  let data_file := temp_name w (S n) in
  let data_dump := create_dump_command p false data_file in
  exists pl,
    plan_commands w n p = Ok pl
    /\ plan_cmd_list pl
       = ((creation_steps p ++ grant_steps p) ++
          (create_dump_command p true schema_file
             :: map (load_step p schema_file) (dest p)) ++
          (data_dump :: map (load_step p data_file) (dest p)) ++
          update_steps w p)%list
    /\ snd (create_dump_command p true schema_file)
       = dump_text p "--no-data"
           (ignore_flags (name (source p)) (ignore_tables p)) schema_file
    /\ snd data_dump
       = dump_text p "--no-create-info --complete-insert"
           (fold_right append ""
              (map (ignore_flag (name (source p))) (ignore_tables p)))
           data_file
    /\ forall table,
         In table (ignore_tables p) ->
         contains (ignore_flag (name (source p)) table) (snd data_dump) = true.
Proof.
  intros ok Hf Hi schema_file data_file data_dump.
  assert (Ht : truthy (ignore_tables p) = true)
    by (destruct (ignore_tables p); [now elim Hi | reflexivity]).
  assert (Text : snd data_dump
                 = dump_text p "--no-create-info --complete-insert"
                     (ignore_flags (name (source p)) (ignore_tables p))
                     data_file).
  { unfold data_dump. rewrite create_dump_command_text.
    unfold data_flag. now rewrite Ht. }
  eexists. split; [apply plan_commands_spec; exact ok |].
  cbn [plan_cmd_list]. unfold transfer_steps, cycle. rewrite Hf, Ht.
  repeat split.
  - now rewrite <- !app_assoc.
  - now rewrite create_dump_command_text.
  - exact Text.
  - intros table Hin. rewrite Text.
    destruct (ignore_flags_split (name (source p)) table _ Hin)
      as [a [b ->]].
    apply dump_text_contains_exclusion.
Qed.

Lemma busy_users_have_permissions : users_have_permissions busy.
Proof. listed_users. Qed.

Lemma selective_transfer_two_cycles_witness :
  users_have_permissions busy
  /\ fetch_data busy = true
  /\ ignore_tables busy <> []
  /\ exists pl,
       plan_commands world 0 busy = Ok pl
       /\ map snd (plan_cmd_list pl)
          = ["/usr/bin/mysql -hdh -udu -pdp -e 'DROP DATABASE IF EXISTS ddb; CREATE DATABASE ddb;'";
             "/usr/bin/mysql -heh -ueu -pep -e 'DROP DATABASE IF EXISTS edb; CREATE DATABASE edb;'";
             "/usr/bin/mysql -hdh -udu -pdp -e " ++ dquote ++ "GRANT SELECT on ddb.* to 't'@'%' IDENTIFIED BY 'tp'; FLUSH PRIVILEGES;" ++ dquote;
             "/usr/bin/mysql -heh -ueu -pep -e " ++ dquote ++ "GRANT SELECT on edb.* to 't'@'%' IDENTIFIED BY 'tp'; FLUSH PRIVILEGES;" ++ dquote;
             "/usr/bin/mysqldump --lock-tables=false --routines=true --no-data --ignore-table=sdb.logs --ignore-table=sdb.audit  --result-file=/tmp/tmpA.sql -hsh -usu -psp sdb";
             "/usr/bin/mysql -hdh -udu -pdp ddb < /tmp/tmpA.sql";
             "/usr/bin/mysql -heh -ueu -pep edb < /tmp/tmpA.sql";
             "/usr/bin/mysqldump --lock-tables=false --routines=true --no-create-info --complete-insert --ignore-table=sdb.logs --ignore-table=sdb.audit  --result-file=/tmp/tmpB.sql -hsh -usu -psp sdb";
             "/usr/bin/mysql -hdh -udu -pdp ddb < /tmp/tmpB.sql";
             "/usr/bin/mysql -heh -ueu -pep edb < /tmp/tmpB.sql";
             "/usr/bin/mysql -hdh -udu -pdp ddb < fix.sql";
             "/usr/bin/mysql -heh -ueu -pep edb < fix.sql"].
Proof.
  assert (Hf : fetch_data busy = true) by reflexivity.
  assert (Hi : ignore_tables busy <> []) by discriminate.
  pose proof (selective_transfer_two_cycles world 0 busy
                busy_users_have_permissions Hf Hi) as H.
  cbv zeta in H. destruct H as [pl [E [L _]]].
  split; [exact busy_users_have_permissions |].
  split; [exact Hf |]. split; [exact Hi |].
  exists pl. split; [exact E |]. rewrite L. vm_compute. reflexivity.
Defined.

(** C5.  For a configuration whose test users all have a [permissions]
    entry the plan succeeds, and its command list is the creation steps (a
    step per destination when [create_dest_db] is set, none otherwise),
    then the grant steps (a step per test user and destination), then the
    dump and load steps, then the update steps (a step per existing script
    and destination), in this order. *)
Theorem plan_phases_in_order (w : World) (n : nat) (p : Porter) :
  users_have_permissions p ->
  exists pl creation grants transfer updates,
    plan_commands w n p = Ok pl
    /\ plan_cmd_list pl = (creation ++ grants ++ transfer ++ updates)%list
    /\ creation
       = (if create_dest_db p then map (create_db_step p) (dest p) else [])
    /\ grants
       = flat_map
           (fun tu =>
              map (grant_step p tu (level_of tu) (privileges_of (level_of tu)))
                (dest p))
           (test_users p)
    /\ transfer
       = (if fetch_data p then
            if truthy (ignore_tables p) then
              (cycle p true (temp_name w n)
               ++ cycle p false (temp_name w (S n)))%list
            else cycle p false (temp_name w n)
          else cycle p true (temp_name w n))
    /\ updates
       = flat_map (fun update => map (update_step p update) (dest p))
           (filter (isfile w) (update_scripts p)).
Proof.
  intros ok. do 5 eexists.
  split; [apply plan_commands_spec; exact ok |].
  split; [reflexivity |]. repeat split.
Qed.

Lemma plan_phases_in_order_witness :
  users_have_permissions busy
  /\ exists pl,
       plan_commands world 0 busy = Ok pl
       /\ map fst (plan_cmd_list pl)
          = ["Creating ddb on dh..."; "Creating edb on eh...";
             "Granting t None permission on dh.ddb...";
             "Granting t None permission on eh.edb...";
             "Dumping empty schema from sh.sdb...";
             "Loading /tmp/tmpA.sql on ddb.dh...";
             "Loading /tmp/tmpA.sql on edb.eh...";
             "Dumping selected data from sh.sdb...";
             "Loading /tmp/tmpB.sql on ddb.dh...";
             "Loading /tmp/tmpB.sql on edb.eh...";
             "Applying fix.sql to dh.ddb..."; "Applying fix.sql to eh.edb..."].
Proof.
  split; [exact busy_users_have_permissions |].
  destruct (plan_phases_in_order world 0 busy busy_users_have_permissions)
    as [pl [c [g [t [u [E [L [-> [-> [-> ->]]]]]]]]]].
  exists pl. split; [exact E |]. rewrite L. vm_compute. reflexivity.
Defined.

(** C9.  With [fetch_data] false the plan succeeds and its data-transfer
    steps are one dump, in the mode [--no-data], into the first temporary
    file, followed by one load of that file per destination, in the order
    of the destinations; what comes before are the creation and grant
    steps, what comes after are the update steps, and one temporary file
    was made. *)
Theorem schema_only_transfer (w : World) (n : nat) (p : Porter) :
  users_have_permissions p ->
  fetch_data p = false ->
  let schema_file := temp_name w n in
  let dump := create_dump_command p true schema_file in
  exists pl,
    plan_commands w n p = Ok pl
    /\ plan_cmd_list pl
       = ((creation_steps p ++ grant_steps p) ++
          (dump :: map (load_step p schema_file) (dest p)) ++
          update_steps w p)%list
    /\ fst dump
       = "Dumping empty schema from " ++ host (source p) ++ "." ++
         name (source p) ++ "..."
    /\ snd dump
       = dump_text p "--no-data"
           (ignore_flags (name (source p)) (ignore_tables p)) schema_file
    /\ temp_files (plan_self pl) = (temp_files p ++ [schema_file])%list.
Proof.
  intros ok Hf schema_file dump.
  eexists. split; [apply plan_commands_spec; exact ok |].
  cbn [plan_cmd_list plan_self set_temp_files temp_files].
  unfold transfer_steps, transfer_files, cycle. rewrite Hf. cbn [andb].
  repeat split.
  - now rewrite <- !app_assoc.
  - unfold dump. now rewrite create_dump_command_text.
Qed.

Lemma schema_only_transfer_witness :
  let p := porter false false false (job [] (Some false) ["logs"] []) in
  users_have_permissions p
  /\ fetch_data p = false
  /\ exists pl,
       plan_commands world 0 p = Ok pl
       /\ plan_cmd_list pl
          = [("Creating ddb on dh...",
              "/usr/bin/mysql -hdh -udu -pdp -e 'DROP DATABASE IF EXISTS ddb; CREATE DATABASE ddb;'");
             ("Creating edb on eh...",
              "/usr/bin/mysql -heh -ueu -pep -e 'DROP DATABASE IF EXISTS edb; CREATE DATABASE edb;'");
             ("Dumping empty schema from sh.sdb...",
              "/usr/bin/mysqldump --lock-tables=false --routines=true --no-data --ignore-table=sdb.logs  --result-file=/tmp/tmpA.sql -hsh -usu -psp sdb");
             ("Loading /tmp/tmpA.sql on ddb.dh...",
              "/usr/bin/mysql -hdh -udu -pdp ddb < /tmp/tmpA.sql");
             ("Loading /tmp/tmpA.sql on edb.eh...",
              "/usr/bin/mysql -heh -ueu -pep edb < /tmp/tmpA.sql")].
Proof.
  cbv zeta.
  assert (ok : users_have_permissions
                 (porter false false false (job [] (Some false) ["logs"] [])))
    by listed_users.
  pose proof (schema_only_transfer world 0 _ ok eq_refl) as H.
  cbv zeta in H. destruct H as [pl [E [L _]]].
  split; [exact ok |]. split; [reflexivity |].
  exists pl. split; [exact E |]. rewrite L. vm_compute. reflexivity.
Defined.

(** C10.  A porter built from a configuration without the [fetch_data] key
    has [fetch_data] true and is the porter built from the same
    configuration with [fetch_data: true].  When moreover no table is
    ignored, its plan succeeds and the data-transfer steps are one dump, in
    the mode [--complete-insert] and without exclusions, into one temporary
    file, followed by a load of that file per destination. *)
Theorem fetch_data_defaults_to_true (w : World) (pi : port_info)
    (q dbg dry : bool) (p : Porter) :
  MySQLPorter_init w pi q dbg dry = Ok p ->
  pi_fetch_data pi = None ->
  fetch_data p = true
  /\ MySQLPorter_init w (with_fetch_data pi (Some true)) q dbg dry = Ok p
  /\ (users_have_permissions p ->
      pi_ignore_tables pi = None \/ pi_ignore_tables pi = Some [] ->
      forall n,
        let file := temp_name w n in
        let dump := create_dump_command p false file in
        exists pl,
          plan_commands w n p = Ok pl
          /\ plan_cmd_list pl
             = ((creation_steps p ++ grant_steps p) ++
                (dump :: map (load_step p file) (dest p)) ++
                update_steps w p)%list
          /\ fst dump
             = "Dumping all tables and data from " ++ host (source p) ++
               "." ++ name (source p) ++ "..."
          /\ snd dump = dump_text p "--complete-insert" "" file
          /\ temp_files (plan_self pl) = [file]).
Proof.
  intros Hinit Hnone.
  assert (Hp : p = set_variables pi q dbg dry (which w "mysqldump")
                     (which w "mysql")).
  { unfold MySQLPorter_init in Hinit.
    destruct (which w "mysqldump"); now inversion Hinit. }
  assert (Hf : fetch_data p = true).
  { rewrite Hp. cbn [set_variables fetch_data]. now rewrite Hnone. }
  split; [exact Hf |]. split.
  - rewrite <- Hinit. unfold MySQLPorter_init, set_variables, with_fetch_data.
    cbn. now rewrite Hnone.
  - intros ok Hnoign n file dump.
    assert (Hi : ignore_tables p = []).
    { rewrite Hp. cbn [set_variables ignore_tables].
      now destruct Hnoign as [-> | ->]. }
    assert (Htf : temp_files p = []) by now rewrite Hp.
    eexists. split; [apply plan_commands_spec; exact ok |].
    cbn [plan_cmd_list plan_self set_temp_files temp_files].
    unfold transfer_steps, transfer_files, cycle.
    rewrite Hf, Hi, Htf. cbn [truthy andb app].
    repeat split.
    + now rewrite <- !app_assoc.
    + unfold dump, create_dump_command, dump_type.
      now rewrite Hi.
    + unfold dump. rewrite create_dump_command_text.
      unfold data_flag. now rewrite Hi.
Qed.

Lemma fetch_data_defaults_to_true_witness :
  let pi := job [] None [] [] in
  let p := porter true false false pi in
  MySQLPorter_init world pi true false false = Ok p
  /\ pi_fetch_data pi = None
  /\ fetch_data p = true
  /\ exists pl,
       plan_commands world 0 p = Ok pl
       /\ plan_cmd_list pl
          = [("Creating ddb on dh...",
              "/usr/bin/mysql -hdh -udu -pdp -e 'DROP DATABASE IF EXISTS ddb; CREATE DATABASE ddb;'");
             ("Creating edb on eh...",
              "/usr/bin/mysql -heh -ueu -pep -e 'DROP DATABASE IF EXISTS edb; CREATE DATABASE edb;'");
             ("Dumping all tables and data from sh.sdb...",
              "/usr/bin/mysqldump --lock-tables=false --routines=true --complete-insert  --result-file=/tmp/tmpA.sql -hsh -usu -psp sdb");
             ("Loading /tmp/tmpA.sql on ddb.dh...",
              "/usr/bin/mysql -hdh -udu -pdp ddb < /tmp/tmpA.sql");
             ("Loading /tmp/tmpA.sql on edb.eh...",
              "/usr/bin/mysql -heh -ueu -pep edb < /tmp/tmpA.sql")].
Proof.
  cbv zeta.
  assert (Hinit : MySQLPorter_init world (job [] None [] []) true false false
                  = Ok (porter true false false (job [] None [] [])))
    by (vm_compute; reflexivity).
  assert (ok : users_have_permissions
                 (porter true false false (job [] None [] [])))
    by listed_users.
  destruct (fetch_data_defaults_to_true world (job [] None [] [])
              true false false _ Hinit eq_refl) as [Hf [_ Hplan]].
  specialize (Hplan ok (or_intror eq_refl) 0). cbv zeta in Hplan.
  destruct Hplan as [pl [E [L _]]].
  split; [exact Hinit |]. split; [reflexivity |]. split; [exact Hf |].
  exists pl. split; [exact E |]. rewrite L. vm_compute. reflexivity.
Defined.

(** C8.  [create_update_commands] returns, for the scripts that exist, one
    apply-step per script and destination, scripts in their order and,
    under each script, destinations in theirs; it renders nothing for a
    script that does not exist and prints one diagnostic per such script.
    It raises nothing: when the test users have their entries the plan
    succeeds whatever scripts are missing, ends with these apply-steps, has
    printed these diagnostics, and the job runs to its end. *)
Theorem missing_update_scripts_are_skipped (w : World) (n : nat)
    (p : Porter) :
  users_have_permissions p ->
  let existing := filter (isfile w) (update_scripts p) in
  let missing := filter (fun update => negb (isfile w update))
                   (update_scripts p) in
  let apply_steps :=
    flat_map (fun update => map (update_step p update) (dest p)) existing in
  let diagnostics :=
    map (fun update => "ERROR: " ++ update ++ " does not exist!") missing in
  create_update_commands w p = (apply_steps, diagnostics)
  /\ exists pl,
       plan_commands w n p = Ok pl
       /\ plan_cmd_list pl
          = ((creation_steps p ++ grant_steps p ++ transfer_steps w n p) ++
             apply_steps)%list
       /\ plan_printed pl = diagnostics
       /\ do_portage w n p
          = Ok (execute w (plan_self pl) (plan_cmd_list pl) diagnostics).
Proof.
  intros ok existing missing apply_steps diagnostics.
  split; [apply create_update_commands_spec |].
  eexists. split; [apply plan_commands_spec; exact ok |].
  cbn [plan_cmd_list plan_printed plan_self].
  split; [now rewrite <- !app_assoc |]. split; [reflexivity |].
  unfold do_portage. rewrite (plan_commands_spec w n p ok). reflexivity.
Qed.

Lemma missing_update_scripts_are_skipped_witness :
  users_have_permissions busy
  /\ isfile world "missing.sql" = false
  /\ create_update_commands world busy
     = ([("Applying fix.sql to dh.ddb...",
          "/usr/bin/mysql -hdh -udu -pdp ddb < fix.sql");
         ("Applying fix.sql to eh.edb...",
          "/usr/bin/mysql -heh -ueu -pep edb < fix.sql")],
        ["ERROR: missing.sql does not exist!"])
  /\ exists o, do_portage world 0 busy = Ok o.
Proof.
  pose proof (missing_update_scripts_are_skipped world 0 busy
                busy_users_have_permissions) as H.
  cbv zeta in H. destruct H as [U [pl [_ [_ [_ D]]]]].
  split; [exact busy_users_have_permissions |]. split; [reflexivity |].
  split; [rewrite U; vm_compute; reflexivity |].
  eexists. exact D.
Defined.

(** X23.  In a live run whose pending temporary files are distinct and in
    which no command text mentions two of them, every step is spawned, in
    order; a temporary file mentioned by the command of a step whose error
    output has the marker [ERROR] is no longer pending when the run ends
    and is not removed; a temporary file that no such command mentions is
    still pending when the run ends and, outside debug mode, is removed. *)
Theorem failed_steps_keep_their_files (w : World) (p : Porter)
    (cmd_list : list step) (already : list string) :
  dry_run p = false ->
  NoDup (temp_files p) ->
  one_file_per_command (temp_files p) cmd_list ->
  let o := execute w p cmd_list already in
  spawned o = map snd cmd_list
  /\ (forall k cmd tf,
        nth_error cmd_list k = Some cmd ->
        contains "ERROR" (popen_stderr w k (snd cmd)) = true ->
        In tf (temp_files p) ->
        contains tf (snd cmd) = true ->
        ~ In tf (kept o) /\ ~ In tf (removed o))
  /\ (forall tf,
        In tf (temp_files p) ->
        (forall k cmd,
           nth_error cmd_list k = Some cmd ->
           contains "ERROR" (popen_stderr w k (snd cmd)) = true ->
           contains tf (snd cmd) = false) ->
        In tf (kept o) /\ (debug p = false -> In tf (removed o))).
Proof.
  intros Hdry nd Hone o.
  destruct (execute_effects w p cmd_list already Hdry nd Hone)
    as [Hk [Hs Hr]].
  fold o in Hk, Hs, Hr.
  split; [exact Hs |]. split.
  - intros k cmd tf Hnth Herr Hin Hmention.
    assert (Out : ~ In tf (kept o)).
    { rewrite Hk. intros Hkept. apply filter_In in Hkept.
      destruct Hkept as [_ Hun]. unfold unmentioned in Hun.
      apply negb_true_iff in Hun.
      assert (Hex : existsb (contains tf) (failed_commands w 0 cmd_list)
                    = true).
      { apply existsb_exists. exists (snd cmd). split; [| exact Hmention].
        apply failed_commands_In. exists k, cmd. auto. }
      congruence. }
    split; [exact Out |]. rewrite Hr. destruct (debug p); auto.
  - intros tf Hin Hnone.
    assert (Kept : In tf (kept o)).
    { rewrite Hk. apply filter_In. split; [exact Hin |].
      unfold unmentioned. apply negb_true_iff.
      destruct (existsb (contains tf) (failed_commands w 0 cmd_list)) eqn:Hex;
        [| reflexivity].
      apply existsb_exists in Hex. destruct Hex as [x [Hx Hm]].
      apply failed_commands_In in Hx. destruct Hx as [k [cmd [E [F ->]]]].
      rewrite (Hnone k cmd E F) in Hm. discriminate Hm. }
    split; [exact Kept |]. intros Hdbg. now rewrite Hr, Hdbg.
Qed.

Lemma failed_steps_keep_their_files_witness :
  let p := set_temp_files
             (porter false false false (job [] None ["logs"] []))
             ["/tmp/tmpA.sql"; "/tmp/tmpB.sql"] in
  let cmd_list := (creation_steps p ++ transfer_steps world 0 p)%list in
  let o := execute world p cmd_list [] in
  dry_run p = false
  /\ NoDup (temp_files p)
  /\ one_file_per_command (temp_files p) cmd_list
  /\ List.length (spawned o) = 8
  /\ ~ In "/tmp/tmpA.sql" (removed o)
  /\ In "/tmp/tmpB.sql" (removed o).
Proof.
  cbv zeta.
  set (p := set_temp_files
              (porter false false false (job [] None ["logs"] []))
              ["/tmp/tmpA.sql"; "/tmp/tmpB.sql"]).
  set (cmd_list := (creation_steps p ++ transfer_steps world 0 p)%list).
  assert (nd : NoDup (temp_files p)).
  { repeat constructor; cbn; intuition discriminate. }
  assert (one : one_file_per_command (temp_files p) cmd_list).
  { intros cmd a b Hc Ha Hb.
    cbn in Ha, Hb. destruct Ha as [<-|[<-|[]]]; destruct Hb as [<-|[<-|[]]];
      try (intros _ _; reflexivity);
      vm_compute in Hc;
      repeat (destruct Hc as [<-|Hc];
              [vm_compute; intros; discriminate |]);
      destruct Hc. }
  pose proof (failed_steps_keep_their_files world p cmd_list [] eq_refl nd one)
    as H.
  cbv zeta in H. destruct H as [Hs [Hfail Hrest]].
  split; [reflexivity |]. split; [exact nd |]. split; [exact one |].
  split; [rewrite Hs; reflexivity |]. split.
  - refine (proj2 (Hfail 2 _ "/tmp/tmpA.sql" eq_refl _ _ _));
      [reflexivity | now left | reflexivity].
  - refine (proj2 (Hrest "/tmp/tmpB.sql" _ _) eq_refl); [right; now left |].
    intros k cmd E F.
    do 8 (destruct k as [|k];
          [vm_compute in E; inversion E; subst cmd; clear E;
           vm_compute in F; vm_compute; congruence |]).
    vm_compute in E. destruct k; discriminate E.
Defined.

(** C4.  The claim: every temporary file that the command of a failed
    step mentions leaves the pending list and survives the cleanup.  The
    job below ignores a table, so two temporary files are made, and the
    password of its source is the text of the second file's name; the
    schema dump, the first command, therefore mentions both files, and it
    fails.  The removal loop takes the first file out of the list it
    walks and steps over the second, which stays pending and is removed
    at the end of the run although the failed command mentions it. *)
Theorem failed_step_loses_its_second_file :
  let pi := {| pi_source := {| host := "sh"; user := "su";
                               password := "/tmp/tmpB.sql"; name := "sdb" |};
               pi_dest := DestOne dst;
               pi_create_dest_db := None; pi_test_users := None;
               pi_fetch_data := None; pi_ignore_tables := Some ["logs"];
               pi_update := None |} in
  let failing :=
    "/usr/bin/mysqldump --lock-tables=false --routines=true --no-data --ignore-table=sdb.logs  --result-file=/tmp/tmpA.sql -hsh -usu -p/tmp/tmpB.sql sdb" in
  exists p pl o,
    MySQLPorter_init world pi true false false = Ok p
    /\ plan_commands world 0 p = Ok pl
    /\ temp_files (plan_self pl) = ["/tmp/tmpA.sql"; "/tmp/tmpB.sql"]
    /\ option_map snd (nth_error (plan_cmd_list pl) 0) = Some failing
    /\ contains "ERROR" (popen_stderr world 0 failing) = true
    /\ contains "/tmp/tmpA.sql" failing = true
    /\ contains "/tmp/tmpB.sql" failing = true
    /\ do_portage world 0 p = Ok o
    /\ spawned o
       = [failing;
          "/usr/bin/mysql -hdh -udu -pdp ddb < /tmp/tmpA.sql";
          "/usr/bin/mysqldump --lock-tables=false --routines=true --no-create-info --complete-insert --ignore-table=sdb.logs  --result-file=/tmp/tmpB.sql -hsh -usu -p/tmp/tmpB.sql sdb";
          "/usr/bin/mysql -hdh -udu -pdp ddb < /tmp/tmpB.sql"]
    /\ kept o = ["/tmp/tmpB.sql"]
    /\ removed o = ["/tmp/tmpB.sql"].
Proof.
  cbv zeta. do 3 eexists.
  split; [vm_compute; reflexivity |].
  split; [vm_compute; reflexivity |].
  split; [reflexivity |]. split; [reflexivity |].
  split; [reflexivity |]. split; [reflexivity |].
  split; [reflexivity |].
  split; [vm_compute; reflexivity |].
  repeat split.
Qed.

(** Why the files must not share a command: the removal loop walks the list
    it shrinks, so after a removal it steps over the file that moved into
    the freed position. *)
Remark forget_loop_steps_over_next_file :
  forget_temp_files "cat /tmp/tmpA.sql /tmp/tmpB.sql"
    ["/tmp/tmpA.sql"; "/tmp/tmpB.sql"]
  = ["/tmp/tmpB.sql"].
Proof. reflexivity. Qed.

(** * Further properties of the code *)

(** ** [which] *)

Lemma first_exe_sound (w : World) (program : string) (dirs : list string) :
  forall path, first_exe w program dirs = Some path -> is_exe w path = true.
Proof.
  induction dirs as [|d dirs IH]; intros path H; cbn [first_exe] in H;
    [discriminate H |].
  destruct (is_exe w (path_join (strip dquote_char d) program)) eqn:E;
    [inversion H; subst; exact E | now apply IH].
Qed.

(** X1.  A path returned by [which] is an executable file, whether the
    program was given with a directory or looked up on the [PATH]. *)
Theorem which_returns_executable (w : World) (program path : string) :
  which w program = Some path -> is_exe w path = true.
Proof.
  unfold which. destruct (contains "/" program).
  - destruct (is_exe w program) eqn:E; intros H; inversion H; subst.
    exact E.
  - apply first_exe_sound.
Qed.

Lemma which_returns_executable_witness :
  which world "mysql" = Some "/usr/bin/mysql"
  /\ is_exe world "/usr/bin/mysql" = true.
Proof.
  split; [reflexivity |].
  exact (which_returns_executable world "mysql" "/usr/bin/mysql" eq_refl).
Defined.

(** X2.  For a program name without a slash, the path returned by [which]
    is the candidate of the first entry of the [PATH] whose candidate is
    executable: the candidates of all the entries before it are not. *)
Theorem which_takes_first_match (w : World) (program path : string) :
  contains "/" program = false ->
  which w program = Some path ->
  exists before os_path rest,
    split_on ":" (env_PATH w) = (before ++ os_path :: rest)%list
    /\ path = candidate program os_path
    /\ forall d, In d before -> is_exe w (candidate program d) = false.
Proof.
  intros Hslash. unfold which. rewrite Hslash.
  generalize (split_on ":" (env_PATH w)). intros dirs.
  induction dirs as [|d dirs IH]; cbn [first_exe]; intros H;
    [discriminate H |].
  fold (candidate program d) in H.
  destruct (is_exe w (candidate program d)) eqn:E.
  - inversion H; subst. exists [], d, dirs. repeat split. intros x [].
  - destruct (IH H) as [before [os_path [rest [S [P N]]]]].
    exists (d :: before), os_path, rest. rewrite S. repeat split; auto.
    intros x [<-|Hx]; auto.
Qed.

Lemma which_takes_first_match_witness :
  contains "/" "mysqldump" = false
  /\ which world "mysqldump" = Some "/usr/bin/mysqldump"
  /\ exists before os_path rest,
       split_on ":" (env_PATH world) = (before ++ os_path :: rest)%list
       /\ "/usr/bin/mysqldump" = candidate "mysqldump" os_path
       /\ forall d, In d before -> is_exe world (candidate "mysqldump" d) = false.
Proof.
  split; [reflexivity |]. split; [reflexivity |].
  exact (which_takes_first_match world "mysqldump" "/usr/bin/mysqldump"
           eq_refl eq_refl).
Defined.

(** X3.  For a program name without a slash, [which] returns [None]
    exactly when no entry of the [PATH] has an executable candidate. *)
Theorem which_none_iff_no_candidate (w : World) (program : string) :
  contains "/" program = false ->
  (which w program = None <->
   forall d, In d (split_on ":" (env_PATH w)) ->
             is_exe w (candidate program d) = false).
Proof.
  intros Hslash. unfold which. rewrite Hslash.
  generalize (split_on ":" (env_PATH w)). intros dirs.
  induction dirs as [|d dirs IH]; cbn [first_exe].
  - split; [intros _ x [] | reflexivity].
  - fold (candidate program d).
    destruct (is_exe w (candidate program d)) eqn:E.
    + split; [discriminate |]. intros H.
      rewrite (H d (or_introl eq_refl)) in E. discriminate E.
    + rewrite IH. split; intros H x.
      * intros [<-|Hx]; auto.
      * intros Hx. apply H. now right.
Qed.

Lemma which_none_iff_no_candidate_witness :
  contains "/" "mysql" = false
  /\ which world_no_mysql "mysql" = None
  /\ forall d, In d (split_on ":" (env_PATH world_no_mysql)) ->
               is_exe world_no_mysql (candidate "mysql" d) = false.
Proof.
  split; [reflexivity |]. split; [reflexivity |].
  exact (proj1 (which_none_iff_no_candidate world_no_mysql "mysql" eq_refl)
           eq_refl).
Defined.

(** ** Dry runs *)

Lemma run_step_dry (w : World) (p : Porter) (st : Run) (cmd : step) :
  dry_run p = true ->
  run_temp_files (run_step w p st cmd) = run_temp_files st
  /\ run_spawned (run_step w p st cmd) = run_spawned st
  /\ run_printed (run_step w p st cmd)
     = (run_printed st ++
        (if quiet p then [snd cmd]
         else [fst cmd; snd cmd; ("-------------------" ++ nl)%string]))%list.
Proof.
  intros Hdry. unfold run_step, print_if. rewrite Hdry, orb_true_r.
  destruct (quiet p); cbn [negb run_temp_files run_spawned run_printed];
    rewrite <- ?app_assoc; repeat split.
Qed.

Lemma run_steps_dry (w : World) (p : Porter) (cmds : list step) :
  dry_run p = true ->
  forall st,
    run_temp_files (run_steps w p cmds st) = run_temp_files st
    /\ run_spawned (run_steps w p cmds st) = run_spawned st
    /\ (quiet p = true ->
        run_printed (run_steps w p cmds st)
        = (run_printed st ++ map snd cmds)%list).
Proof.
  intros Hdry. unfold run_steps.
  induction cmds as [|c cmds IH]; intros st; cbn [fold_left map].
  - repeat split. intros _. now rewrite app_nil_r.
  - destruct (run_step_dry w p st c Hdry) as [Ht [Hs Hp]].
    destruct (IH (run_step w p st c)) as [IHt [IHs IHp]].
    rewrite IHt, IHs, Ht, Hs. repeat split.
    intros Hq. rewrite (IHp Hq), Hp, Hq, <- app_assoc. reflexivity.
Qed.

(** A dry run touches neither the shell nor the pending files. *)
Lemma execute_dry_effects (w : World) (p : Porter)
    (cmd_list : list step) (already : list string) :
  dry_run p = true ->
  spawned (execute w p cmd_list already) = []
  /\ kept (execute w p cmd_list already) = temp_files p
  /\ removed (execute w p cmd_list already)
     = (if debug p then [] else temp_files p).
Proof.
  intros Hdry. unfold execute.
  set (st0 := print_if (negb (quiet p)) (banner p) _).
  destruct (run_steps_dry w p cmd_list Hdry st0) as [Ht [Hs _]].
  assert (T0 : run_temp_files st0 = temp_files p)
    by (unfold st0, print_if; now destruct (quiet p)).
  assert (S0 : run_spawned st0 = [])
    by (unfold st0, print_if; now destruct (quiet p)).
  unfold print_if.
  destruct (debug p), (quiet p);
    cbn [negb andb kept spawned removed run_temp_files run_spawned];
    rewrite ?Ht, ?Hs, ?T0, ?S0; auto.
Qed.

(** X5.  A dry run spawns no command and forgets no temporary file; it
    still removes every temporary file of the porter at the end, unless
    debug mode is on. *)
Theorem dry_run_spawns_nothing (w : World) (p : Porter)
    (cmd_list : list step) (already : list string) :
  dry_run p = true ->
  spawned (execute w p cmd_list already) = []
  /\ kept (execute w p cmd_list already) = temp_files p
  /\ removed (execute w p cmd_list already)
     = (if debug p then [] else temp_files p).
Proof. intros Hdry. now apply execute_dry_effects. Qed.

Lemma dry_run_spawns_nothing_witness :
  let p := set_temp_files (with_modes busy false false true)
             ["/tmp/tmpA.sql"; "/tmp/tmpB.sql"] in
  dry_run p = true
  /\ spawned (execute world p (transfer_steps world 0 p) []) = []
  /\ removed (execute world p (transfer_steps world 0 p) [])
     = ["/tmp/tmpA.sql"; "/tmp/tmpB.sql"].
Proof.
  cbv zeta. split; [reflexivity |].
  destruct (dry_run_spawns_nothing world
              (set_temp_files (with_modes busy false false true)
                 ["/tmp/tmpA.sql"; "/tmp/tmpB.sql"])
              (transfer_steps world 0
                 (set_temp_files (with_modes busy false false true)
                    ["/tmp/tmpA.sql"; "/tmp/tmpB.sql"]))
              [] eq_refl) as [Hs [_ Hr]].
  split; [exact Hs | exact Hr].
Defined.

(** The console of a quiet dry run. *)
Lemma execute_dry_quiet_console (w : World) (p : Porter)
    (cmd_list : list step) (already : list string) :
  dry_run p = true ->
  quiet p = true ->
  printed (execute w p cmd_list already)
  = (already ++ map snd cmd_list)%list.
Proof.
  intros Hdry Hq. unfold execute.
  set (st0 := print_if (negb (quiet p)) (banner p) _).
  destruct (run_steps_dry w p cmd_list Hdry st0) as [_ [_ Hp]].
  assert (P0 : run_printed st0 = already)
    by (unfold st0, print_if; now rewrite Hq).
  unfold print_if. rewrite Hq, andb_false_r. cbn [negb printed].
  now rewrite (Hp Hq), P0.
Qed.

(** X6.  In quiet mode a dry run prints, after what the planning printed,
    the text of every command of the list, in order, and nothing else. *)
Theorem quiet_dry_run_prints_the_commands (w : World) (p : Porter)
    (cmd_list : list step) (already : list string) :
  dry_run p = true ->
  quiet p = true ->
  printed (execute w p cmd_list already)
  = (already ++ map snd cmd_list)%list.
Proof. intros Hdry Hq. now apply execute_dry_quiet_console. Qed.

Lemma quiet_dry_run_prints_the_commands_witness :
  let p := with_modes busy true false true in
  dry_run p = true
  /\ quiet p = true
  /\ printed (execute world p (cycle p true "/tmp/tmpA.sql") ["planned"])
     = ["planned";
        "/usr/bin/mysqldump --lock-tables=false --routines=true --no-data --ignore-table=sdb.logs --ignore-table=sdb.audit  --result-file=/tmp/tmpA.sql -hsh -usu -psp sdb";
        "/usr/bin/mysql -hdh -udu -pdp ddb < /tmp/tmpA.sql";
        "/usr/bin/mysql -heh -ueu -pep edb < /tmp/tmpA.sql"].
Proof.
  cbv zeta. split; [reflexivity |]. split; [reflexivity |].
  rewrite (quiet_dry_run_prints_the_commands world
             (with_modes busy true false true) _ ["planned"]
             eq_refl eq_refl).
  vm_compute. reflexivity.
Defined.

(** ** Live runs *)

Lemma run_steps_spawned (w : World) (p : Porter) (cmds : list step) :
  dry_run p = false ->
  forall st,
    run_spawned (run_steps w p cmds st)
    = (run_spawned st ++ map snd cmds)%list.
Proof.
  intros Hdry. unfold run_steps.
  induction cmds as [|c cmds IH]; intros st; cbn [fold_left map].
  - now rewrite app_nil_r.
  - rewrite IH. destruct (run_step_effects w p st c Hdry) as [_ ->].
    now rewrite <- app_assoc.
Qed.

(** The commands a live run spawns. *)
Lemma execute_live_spawned (w : World) (p : Porter)
    (cmd_list : list step) (already : list string) :
  dry_run p = false ->
  spawned (execute w p cmd_list already) = map snd cmd_list.
Proof.
  intros Hdry. unfold execute.
  set (st0 := print_if (negb (quiet p)) (banner p) _).
  assert (S0 : run_spawned st0 = [])
    by (unfold st0, print_if; now destruct (quiet p)).
  unfold print_if.
  destruct (negb (debug p) && negb (quiet p))%bool, (negb (quiet p));
    cbn [spawned run_spawned]; now rewrite run_steps_spawned, S0.
Qed.

(** X7.  A live run hands every command of the list to the shell, in the
    order of the list, whatever the commands report: a failed step never
    stops the run. *)
Theorem live_run_spawns_every_command (w : World) (p : Porter)
    (cmd_list : list step) (already : list string) :
  dry_run p = false ->
  spawned (execute w p cmd_list already) = map snd cmd_list.
Proof. intros Hdry. now apply execute_live_spawned. Qed.

Lemma live_run_spawns_every_command_witness :
  dry_run busy = false
  /\ spawned (execute world busy (cycle busy false "/tmp/tmpA.sql") [])
     = ["/usr/bin/mysqldump --lock-tables=false --routines=true --no-create-info --complete-insert --ignore-table=sdb.logs --ignore-table=sdb.audit  --result-file=/tmp/tmpA.sql -hsh -usu -psp sdb";
        "/usr/bin/mysql -hdh -udu -pdp ddb < /tmp/tmpA.sql";
        "/usr/bin/mysql -heh -ueu -pep edb < /tmp/tmpA.sql"].
Proof.
  split; [reflexivity |].
  rewrite (live_run_spawns_every_command world busy _ [] eq_refl).
  vm_compute. reflexivity.
Defined.

(** A step that reports no error leaves the pending files alone and, in
    quiet mode without debug, prints nothing. *)
Lemma run_step_clean (w : World) (p : Porter) (st : Run) (cmd : step) :
  dry_run p = false ->
  failed w (List.length (run_spawned st)) cmd = false ->
  run_temp_files (run_step w p st cmd) = run_temp_files st
  /\ (quiet p = true -> debug p = false ->
      run_printed (run_step w p st cmd) = run_printed st).
Proof.
  intros Hdry Hok. unfold failed in Hok.
  unfold run_step, spawn, print_if. rewrite Hdry.
  destruct (quiet p), (debug p);
    cbn [negb orb run_spawned run_temp_files run_printed];
    rewrite Hok; split; try reflexivity; intros; discriminate.
Qed.

Lemma run_steps_clean (w : World) (p : Porter) (cmds : list step) :
  dry_run p = false ->
  forall st,
    (forall k cmd,
       nth_error cmds k = Some cmd ->
       failed w (List.length (run_spawned st) + k) cmd = false) ->
    run_temp_files (run_steps w p cmds st) = run_temp_files st
    /\ (quiet p = true -> debug p = false ->
        run_printed (run_steps w p cmds st) = run_printed st).
Proof.
  intros Hdry. unfold run_steps.
  induction cmds as [|c cmds IH]; intros st Hclean; cbn [fold_left].
  - split; reflexivity.
  - assert (F : failed w (List.length (run_spawned st)) c = false).
    { specialize (Hclean 0 c eq_refl). now rewrite Nat.add_0_r in Hclean. }
    destruct (run_step_clean w p st c Hdry F) as [Ht Hp].
    destruct (run_step_effects w p st c Hdry) as [_ Hs].
    destruct (IH (run_step w p st c)) as [IHt IHp].
    + intros k cmd E. rewrite Hs, length_app. cbn [List.length].
      replace (List.length (run_spawned st) + 1 + k)
        with (List.length (run_spawned st) + S k) by lia.
      now apply Hclean.
    + rewrite IHt, Ht. split; [reflexivity |].
      intros Hq Hd. now rewrite (IHp Hq Hd), (Hp Hq Hd).
Qed.

(** X8.  When no step of a live run reports an error, every temporary
    file of the porter is still pending at the end and, outside debug
    mode, every one of them is removed, each once and in the order they
    were made. *)
Theorem clean_run_removes_every_temp_file (w : World) (p : Porter)
    (cmd_list : list step) (already : list string) :
  dry_run p = false ->
  clean_run w cmd_list ->
  kept (execute w p cmd_list already) = temp_files p
  /\ removed (execute w p cmd_list already)
     = (if debug p then [] else temp_files p).
Proof.
  intros Hdry Hclean. unfold execute.
  set (st0 := print_if (negb (quiet p)) (banner p) _).
  assert (T0 : run_temp_files st0 = temp_files p)
    by (unfold st0, print_if; now destruct (quiet p)).
  assert (S0 : run_spawned st0 = [])
    by (unfold st0, print_if; now destruct (quiet p)).
  destruct (run_steps_clean w p cmd_list Hdry st0) as [Ht _].
  { intros k cmd E. rewrite S0. exact (Hclean k cmd E). }
  unfold print_if.
  destruct (debug p), (quiet p);
    cbn [negb andb kept removed run_temp_files]; rewrite ?Ht, ?T0; auto.
Qed.

(** X9.  A live run in quiet mode, without debug, in which no step reports
    an error prints nothing of its own: the console holds what the
    planning printed and no more. *)
Theorem quiet_clean_run_is_silent (w : World) (p : Porter)
    (cmd_list : list step) (already : list string) :
  quiet p = true ->
  debug p = false ->
  dry_run p = false ->
  clean_run w cmd_list ->
  printed (execute w p cmd_list already) = already.
Proof.
  intros Hq Hd Hdry Hclean. unfold execute.
  set (st0 := print_if (negb (quiet p)) (banner p) _).
  assert (P0 : run_printed st0 = already)
    by (unfold st0, print_if; now rewrite Hq).
  assert (S0 : run_spawned st0 = [])
    by (unfold st0, print_if; now rewrite Hq).
  destruct (run_steps_clean w p cmd_list Hdry st0) as [_ Hp].
  { intros k cmd E. rewrite S0. exact (Hclean k cmd E). }
  unfold print_if. rewrite Hq, Hd. cbn [negb andb printed].
  now rewrite (Hp Hq Hd), P0.
Qed.

Lemma data_cycle_is_clean :
  let p := set_temp_files (with_modes busy true false false)
             ["/tmp/tmpB.sql"] in
  clean_run world (cycle p false "/tmp/tmpB.sql").
Proof.
  intros p k cmd E.
  do 3 (destruct k as [|k];
        [vm_compute in E; inversion E; subst cmd; vm_compute; reflexivity |]).
  vm_compute in E. destruct k; discriminate E.
Qed.

Lemma clean_run_removes_every_temp_file_witness :
  let p := set_temp_files (with_modes busy true false false)
             ["/tmp/tmpB.sql"] in
  dry_run p = false
  /\ clean_run world (cycle p false "/tmp/tmpB.sql")
  /\ removed (execute world p (cycle p false "/tmp/tmpB.sql") [])
     = ["/tmp/tmpB.sql"].
Proof.
  cbv zeta. split; [reflexivity |]. split; [exact data_cycle_is_clean |].
  exact (proj2 (clean_run_removes_every_temp_file world
                  (set_temp_files (with_modes busy true false false) ["/tmp/tmpB.sql"])
                  _ [] eq_refl data_cycle_is_clean)).
Defined.

Lemma quiet_clean_run_is_silent_witness :
  let p := set_temp_files (with_modes busy true false false)
             ["/tmp/tmpB.sql"] in
  quiet p = true /\ debug p = false /\ dry_run p = false
  /\ clean_run world (cycle p false "/tmp/tmpB.sql")
  /\ printed (execute world p (cycle p false "/tmp/tmpB.sql") []) = [].
Proof.
  cbv zeta. repeat (split; [reflexivity |]).
  split; [exact data_cycle_is_clean |].
  exact (quiet_clean_run_is_silent world
           (set_temp_files (with_modes busy true false false) ["/tmp/tmpB.sql"])
           _ [] eq_refl eq_refl eq_refl data_cycle_is_clean).
Defined.

(** ** What the removal loop never does *)

Lemma list_remove_In (tf x : string) (l : list string) :
  In x (list_remove tf l) -> In x l.
Proof.
  induction l as [|y l IH]; cbn [list_remove]; [auto |].
  destruct (String.eqb y tf); [now right |].
  intros [<-|H]; [now left | right; auto].
Qed.

Lemma list_remove_keeps (tf x : string) (l : list string) :
  x <> tf -> In x l -> In x (list_remove tf l).
Proof.
  intros ne. induction l as [|y l IH]; cbn [list_remove]; [auto |].
  destruct (String.eqb_spec y tf) as [->|_].
  - intros [E|H]; [now elim ne | exact H].
  - intros [<-|H]; [now left | right; auto].
Qed.

Lemma list_remove_NoDup (tf : string) (l : list string) :
  NoDup l -> NoDup (list_remove tf l).
Proof.
  induction 1 as [|y l Hy nd IH]; cbn [list_remove]; [constructor |].
  destruct (String.eqb y tf); [exact nd |].
  constructor; [| exact IH]. intros H. apply Hy. eapply list_remove_In, H.
Qed.

Lemma forget_loop_In (cmd : string) (fuel : nat) :
  forall i l x, In x (forget_loop fuel i cmd l) -> In x l.
Proof.
  induction fuel as [|fuel IH]; intros i l x; cbn [forget_loop]; [auto |].
  destruct (nth_error l i) as [tf|]; [| auto].
  destruct (contains tf cmd); intros H; apply IH in H; auto.
  eapply list_remove_In, H.
Qed.

Lemma forget_loop_NoDup (cmd : string) (fuel : nat) :
  forall i l, NoDup l -> NoDup (forget_loop fuel i cmd l).
Proof.
  induction fuel as [|fuel IH]; intros i l nd; cbn [forget_loop]; [auto |].
  destruct (nth_error l i) as [tf|]; [| auto].
  destruct (contains tf cmd); apply IH; auto. now apply list_remove_NoDup.
Qed.

Lemma forget_loop_keeps_unmentioned (cmd : string) (fuel : nat) :
  forall i l x,
    contains x cmd = false -> In x l -> In x (forget_loop fuel i cmd l).
Proof.
  induction fuel as [|fuel IH]; intros i l x Hx Hin; cbn [forget_loop];
    [auto |].
  destruct (nth_error l i) as [tf|]; [| auto].
  destruct (contains tf cmd) eqn:E; apply IH; auto.
  apply list_remove_keeps; [congruence | exact Hin].
Qed.

(** The removal loop stays within the pending files. *)
Lemma forget_temp_files_within (cmd : string) (tfs : list string) :
  (forall tf, In tf tfs -> contains tf cmd = false ->
              In tf (forget_temp_files cmd tfs))
  /\ (forall tf, In tf (forget_temp_files cmd tfs) -> In tf tfs)
  /\ (NoDup tfs -> NoDup (forget_temp_files cmd tfs)).
Proof.
  unfold forget_temp_files. repeat split.
  - intros tf Hin Hx. now apply forget_loop_keeps_unmentioned.
  - intros tf. apply forget_loop_In.
  - apply forget_loop_NoDup.
Qed.

(** X10.  Whatever a failed command mentions, the removal loop forgets
    only files the command text mentions and invents none: a pending file
    the text does not mention stays pending, what is pending afterwards
    was pending before, and distinct files stay distinct. *)
Theorem forget_only_mentioned_files (cmd : string) (tfs : list string) :
  (forall tf, In tf tfs -> contains tf cmd = false ->
              In tf (forget_temp_files cmd tfs))
  /\ (forall tf, In tf (forget_temp_files cmd tfs) -> In tf tfs)
  /\ (NoDup tfs -> NoDup (forget_temp_files cmd tfs)).
Proof. apply forget_temp_files_within. Qed.

Lemma forget_only_mentioned_files_witness :
  In "/tmp/tmpB.sql"
    (forget_temp_files "cat /tmp/tmpA.sql /tmp/tmpC.sql"
       ["/tmp/tmpA.sql"; "/tmp/tmpB.sql"; "/tmp/tmpC.sql"]).
Proof.
  apply (proj1 (forget_only_mentioned_files
                  "cat /tmp/tmpA.sql /tmp/tmpC.sql"
                  ["/tmp/tmpA.sql"; "/tmp/tmpB.sql"; "/tmp/tmpC.sql"]));
    [right; now left | reflexivity].
Defined.

Lemma run_step_temp_files_cases (w : World) (p : Porter) (st : Run)
    (cmd : step) :
  run_temp_files (run_step w p st cmd) = run_temp_files st
  \/ run_temp_files (run_step w p st cmd)
     = forget_temp_files (snd cmd) (run_temp_files st).
Proof.
  unfold run_step, spawn, print_if.
  destruct (quiet p), (debug p), (dry_run p);
    cbn [negb orb run_spawned run_temp_files]; auto;
    destruct (contains "ERROR" _); auto.
Qed.

Lemma run_steps_temp_files_within (w : World) (p : Porter)
    (cmds : list step) :
  forall st,
    (forall tf, In tf (run_temp_files (run_steps w p cmds st)) ->
                In tf (run_temp_files st))
    /\ (NoDup (run_temp_files st) ->
        NoDup (run_temp_files (run_steps w p cmds st))).
Proof.
  unfold run_steps.
  induction cmds as [|c cmds IH]; intros st; cbn [fold_left]; [auto |].
  destruct (IH (run_step w p st c)) as [IHin IHnd].
  destruct (forget_temp_files_within (snd c) (run_temp_files st))
    as [_ [Fin Fnd]].
  destruct (run_step_temp_files_cases w p st c) as [E|E]; rewrite E in *;
    split; auto.
Qed.

(** The end of [do_portage] after the loop over the steps. *)
Lemma execute_end (w : World) (p : Porter) (cmd_list : list step)
    (already : list string) :
  exists st0,
    run_temp_files st0 = temp_files p
    /\ run_spawned st0 = []
    /\ kept (execute w p cmd_list already)
       = run_temp_files (run_steps w p cmd_list st0)
    /\ removed (execute w p cmd_list already)
       = (if debug p then [] else kept (execute w p cmd_list already)).
Proof.
  unfold execute.
  set (st0 := print_if (negb (quiet p)) (banner p) _).
  exists st0. unfold st0, print_if.
  destruct (quiet p), (debug p); repeat split.
Qed.

(** X11.  In every mode and whatever the commands report, a run passes to
    [os.remove] only temporary files of the porter, each at most once when
    they are distinct, and in debug mode it removes none. *)
Theorem run_removes_only_its_temp_files (w : World) (p : Porter)
    (cmd_list : list step) (already : list string) :
  (forall tf, In tf (removed (execute w p cmd_list already)) ->
              In tf (temp_files p))
  /\ (NoDup (temp_files p) ->
      NoDup (removed (execute w p cmd_list already)))
  /\ (debug p = true -> removed (execute w p cmd_list already) = []).
Proof.
  destruct (execute_end w p cmd_list already) as [st0 [T0 [_ [K R]]]].
  destruct (run_steps_temp_files_within w p cmd_list st0) as [Hin Hnd].
  rewrite T0 in Hin, Hnd. rewrite R, K.
  destruct (debug p); repeat split; auto;
    try (intros tf []); try constructor; discriminate.
Qed.

Lemma run_removes_only_its_temp_files_witness :
  let p := set_temp_files (with_modes busy false true false)
             ["/tmp/tmpA.sql"; "/tmp/tmpB.sql"] in
  debug p = true
  /\ removed (execute world p (transfer_steps world 0 p) []) = [].
Proof.
  cbv zeta. split; [reflexivity |].
  exact (proj2 (proj2 (run_removes_only_its_temp_files world
                         (set_temp_files (with_modes busy false true false)
                            ["/tmp/tmpA.sql"; "/tmp/tmpB.sql"])
                         _ [])) eq_refl).
Defined.

Lemma run_steps_keep_unmentioned (w : World) (p : Porter) (tf : string)
    (cmds : list step) :
  dry_run p = false ->
  forall st,
    (forall k cmd,
       nth_error cmds k = Some cmd ->
       failed w (List.length (run_spawned st) + k) cmd = true ->
       contains tf (snd cmd) = false) ->
    In tf (run_temp_files st) ->
    In tf (run_temp_files (run_steps w p cmds st)).
Proof.
  intros Hdry. unfold run_steps.
  induction cmds as [|c cmds IH]; intros st Hun Hin; cbn [fold_left];
    [exact Hin |].
  destruct (run_step_effects w p st c Hdry) as [Ht Hs].
  apply IH.
  - intros k cmd E F. apply (Hun (S k) cmd E).
    rewrite Hs, length_app in F. cbn [List.length] in F.
    now replace (List.length (run_spawned st) + S k)
      with (List.length (run_spawned st) + 1 + k) by lia.
  - rewrite Ht. destruct (failed w _ c) eqn:F; [| exact Hin].
    apply forget_temp_files_within; [exact Hin |].
    apply (Hun 0 c eq_refl). now rewrite Nat.add_0_r.
Qed.

(** X12.  In a live run with distinct temporary files, a temporary file
    that no failed step's command mentions is still pending at the end
    and, outside debug mode, is removed, also when a failed command
    mentions several of the other files. *)
Theorem unmentioned_file_is_removed (w : World) (p : Porter)
    (cmd_list : list step) (already : list string) (tf : string) :
  dry_run p = false ->
  NoDup (temp_files p) ->
  In tf (temp_files p) ->
  (forall k cmd,
     nth_error cmd_list k = Some cmd ->
     contains "ERROR" (popen_stderr w k (snd cmd)) = true ->
     contains tf (snd cmd) = false) ->
  In tf (kept (execute w p cmd_list already))
  /\ (debug p = false -> In tf (removed (execute w p cmd_list already))).
Proof.
  intros Hdry _ Hin Hun.
  destruct (execute_end w p cmd_list already) as [st0 [T0 [S0 [K R]]]].
  assert (Kept : In tf (kept (execute w p cmd_list already))).
  { rewrite K. apply run_steps_keep_unmentioned; auto; [| now rewrite T0].
    intros k cmd E F. rewrite S0 in F. exact (Hun k cmd E F). }
  split; [exact Kept |]. intros Hd. now rewrite R, Hd.
Qed.

Lemma unmentioned_file_is_removed_witness :
  let p := set_temp_files busy
             ["/tmp/tmpA.sql"; "/tmp/tmpB.sql"; "/tmp/tmpC.sql"] in
  let dump := "mysqldump --result-file=/tmp/tmpA.sql -p/tmp/tmpC.sql sdb" in
  let cmd_list := [("dump", dump); ("load", "mysql < /tmp/tmpB.sql")] in
  dry_run p = false
  /\ NoDup (temp_files p)
  /\ contains "ERROR" (popen_stderr world 0 dump) = true
  /\ contains "/tmp/tmpA.sql" dump = true
  /\ contains "/tmp/tmpC.sql" dump = true
  /\ contains "/tmp/tmpB.sql" dump = false
  /\ In "/tmp/tmpB.sql" (temp_files p)
  /\ In "/tmp/tmpB.sql" (removed (execute world p cmd_list []))
  /\ removed (execute world p cmd_list []) = ["/tmp/tmpB.sql"].
Proof.
  cbv zeta.
  assert (nd : NoDup (temp_files
                        (set_temp_files busy
                           ["/tmp/tmpA.sql"; "/tmp/tmpB.sql";
                            "/tmp/tmpC.sql"]))).
  { repeat constructor; cbn; intuition discriminate. }
  split; [reflexivity |]. split; [exact nd |].
  do 4 (split; [reflexivity |]). split; [right; now left |].
  split; [| reflexivity].
  refine (proj2 (unmentioned_file_is_removed world
                   (set_temp_files busy
                      ["/tmp/tmpA.sql"; "/tmp/tmpB.sql"; "/tmp/tmpC.sql"])
                   [("dump",
                     "mysqldump --result-file=/tmp/tmpA.sql -p/tmp/tmpC.sql sdb");
                    ("load", "mysql < /tmp/tmpB.sql")] []
                   "/tmp/tmpB.sql" eq_refl nd _ _) eq_refl).
  - right; now left.
  - intros k cmd E F. destruct k as [|k].
    + inversion E; subst cmd. reflexivity.
    + destruct k as [|k].
      * inversion E; subst cmd. vm_compute in F. discriminate F.
      * destruct k; discriminate E.
Defined.

Lemma list_remove_middle (tf : string) (before rest : list string) :
  ~ In tf before ->
  list_remove tf (before ++ tf :: rest) = (before ++ rest)%list.
Proof.
  induction before as [|x before IH]; intros Hno; cbn [app list_remove].
  - now rewrite String.eqb_refl.
  - destruct (String.eqb_spec x tf) as [->|_]; [elim Hno; now left |].
    rewrite IH; [reflexivity |]. intros H. apply Hno. now right.
Qed.

Lemma forget_loop_first_mentioned (cmd tf : string)
    (before rest : list string) (fuel : nat) :
  NoDup (before ++ tf :: rest) ->
  (forall x, In x before -> contains x cmd = false) ->
  contains tf cmd = true ->
  forall i,
    i <= List.length before ->
    List.length (before ++ tf :: rest) <= i + fuel ->
    ~ In tf (forget_loop fuel i cmd (before ++ tf :: rest)).
Proof.
  intros nd Hbefore Htf.
  assert (Hnot : ~ In tf (before ++ rest)) by now apply NoDup_remove_2.
  induction fuel as [|fuel IH]; intros i Hi Hlen.
  - rewrite length_app in Hlen. cbn [List.length] in Hlen. lia.
  - cbn [forget_loop].
    destruct (Nat.eq_dec i (List.length before)) as [->|ne].
    + rewrite nth_error_app2, Nat.sub_diag by lia. cbn [nth_error].
      rewrite Htf, list_remove_middle.
      * intros H. apply Hnot. eapply forget_loop_In, H.
      * intros H. apply Hnot. apply in_or_app. now left.
    + assert (Hlt : i < List.length before) by lia.
      rewrite nth_error_app1 by exact Hlt.
      destruct (nth_error before i) as [x|] eqn:E.
      * rewrite (Hbefore x (nth_error_In _ _ E)). apply IH; lia.
      * apply nth_error_None in E. lia.
Qed.

(** The first mentioned file goes, whatever follows it. *)
Lemma forget_first_mentioned (cmd tf : string)
    (before rest : list string) :
  NoDup (before ++ tf :: rest) ->
  (forall x, In x before -> contains x cmd = false) ->
  contains tf cmd = true ->
  ~ In tf (forget_temp_files cmd (before ++ tf :: rest)).
Proof.
  intros nd Hbefore Htf. unfold forget_temp_files.
  apply forget_loop_first_mentioned; auto; lia.
Qed.

(** X13.  When the pending files are distinct, the removal loop always
    forgets the first pending file that the failed command mentions, even
    when the command mentions others as well. *)
Theorem first_mentioned_file_is_forgotten (cmd tf : string)
    (before rest : list string) :
  NoDup (before ++ tf :: rest) ->
  (forall x, In x before -> contains x cmd = false) ->
  contains tf cmd = true ->
  ~ In tf (forget_temp_files cmd (before ++ tf :: rest)).
Proof. apply forget_first_mentioned. Qed.

Lemma first_mentioned_file_is_forgotten_witness :
  NoDup (["/tmp/tmpA.sql"] ++ "/tmp/tmpB.sql" :: ["/tmp/tmpC.sql"])
  /\ ~ In "/tmp/tmpB.sql"
       (forget_temp_files "cat /tmp/tmpB.sql /tmp/tmpC.sql"
          (["/tmp/tmpA.sql"] ++ "/tmp/tmpB.sql" :: ["/tmp/tmpC.sql"])).
Proof.
  assert (nd : NoDup (["/tmp/tmpA.sql"] ++ "/tmp/tmpB.sql"
                      :: ["/tmp/tmpC.sql"])).
  { repeat constructor; cbn; intuition discriminate. }
  split; [exact nd |].
  apply (first_mentioned_file_is_forgotten
           "cat /tmp/tmpB.sql /tmp/tmpC.sql" "/tmp/tmpB.sql"
           ["/tmp/tmpA.sql"] ["/tmp/tmpC.sql"] nd); [| reflexivity].
  intros x [<-|[]]. reflexivity.
Defined.

(** ** The size and the edges of a plan *)

Lemma length_flat_map_const {A B} (f : A -> list B) (l : list A) (d : nat) :
  (forall x, List.length (f x) = d) ->
  List.length (flat_map f l) = List.length l * d.
Proof.
  intros H. induction l as [|x l IH]; cbn [flat_map List.length];
    [reflexivity |].
  rewrite length_app, H, IH. lia.
Qed.

(** X14.  For a configuration whose test users have their entries, the
    number of planned steps is: a step per destination if the databases
    are created, a step per test user and destination, one or two cycles
    of a dump and a load per destination (two when data is fetched and
    tables are ignored), and a step per existing update script and
    destination. *)
Theorem plan_step_count (w : World) (n : nat) (p : Porter) :
  users_have_permissions p ->
  exists pl,
    plan_commands w n p = Ok pl
    /\ List.length (plan_cmd_list pl)
       = (if create_dest_db p then List.length (dest p) else 0)
         + List.length (test_users p) * List.length (dest p)
         + (if (fetch_data p && truthy (ignore_tables p))%bool then 2 else 1)
           * S (List.length (dest p))
         + List.length (filter (isfile w) (update_scripts p))
           * List.length (dest p).
Proof.
  intros ok. eexists. split; [apply plan_commands_spec; exact ok |].
  cbn [plan_cmd_list]. rewrite !length_app.
  unfold creation_steps, grant_steps, update_steps, transfer_steps, cycle.
  rewrite (length_flat_map_const _ (test_users p) (List.length (dest p)))
    by (intros; apply length_map).
  rewrite (length_flat_map_const _ (filter (isfile w) (update_scripts p))
             (List.length (dest p)))
    by (intros; apply length_map).
  destruct (create_dest_db p), (fetch_data p), (truthy (ignore_tables p));
    cbn [andb List.length]; rewrite ?length_app; cbn [List.length];
    rewrite ?length_map; lia.
Qed.

Lemma plan_step_count_witness :
  users_have_permissions busy
  /\ exists pl,
       plan_commands world 0 busy = Ok pl
       /\ List.length (plan_cmd_list pl) = 12.
Proof.
  split; [exact busy_users_have_permissions |].
  destruct (plan_step_count world 0 busy busy_users_have_permissions)
    as [pl [E L]].
  exists pl. split; [exact E |]. rewrite L. reflexivity.
Defined.

(** X15.  With an empty list of destinations nothing is created, granted,
    loaded or updated, and the source is dumped all the same: the plan is
    the one or two dump commands and the temporary files are made. *)
Theorem plan_without_destinations (w : World) (n : nat) (p : Porter) :
  users_have_permissions p ->
  dest p = [] ->
  exists pl,
    plan_commands w n p = Ok pl
    /\ plan_cmd_list pl
       = (if fetch_data p then
            if truthy (ignore_tables p) then
              [create_dump_command p true (temp_name w n);
               create_dump_command p false (temp_name w (S n))]
            else [create_dump_command p false (temp_name w n)]
          else [create_dump_command p true (temp_name w n)])
    /\ temp_files (plan_self pl)
       = (temp_files p ++ transfer_files w n p)%list.
Proof.
  intros ok Hd. eexists. split; [apply plan_commands_spec; exact ok |].
  cbn [plan_cmd_list plan_self set_temp_files temp_files].
  split; [| reflexivity].
  unfold creation_steps, grant_steps, update_steps, transfer_steps, cycle.
  rewrite Hd. cbn [map].
  assert (G : forall {A} (l : list A), flat_map (fun _ => @nil step) l = [])
    by (intros A l; induction l; auto).
  rewrite !G.
  destruct (create_dest_db p), (fetch_data p), (truthy (ignore_tables p));
    reflexivity.
Qed.

Lemma plan_without_destinations_witness :
  let p := set_variables
             {| pi_source := src; pi_dest := DestList [];
                pi_create_dest_db := Some true;
                pi_test_users := Some [tester PermNull];
                pi_fetch_data := Some false; pi_ignore_tables := None;
                pi_update := Some ["fix.sql"] |}
             false false false (Some "/usr/bin/mysqldump")
             (Some "/usr/bin/mysql") in
  users_have_permissions p
  /\ dest p = []
  /\ exists pl,
       plan_commands world 0 p = Ok pl
       /\ map snd (plan_cmd_list pl)
          = ["/usr/bin/mysqldump --lock-tables=false --routines=true --no-data  --result-file=/tmp/tmpA.sql -hsh -usu -psp sdb"].
Proof.
  cbv zeta.
  set (p := set_variables _ false false false _ _).
  assert (ok : users_have_permissions p) by listed_users.
  split; [exact ok |]. split; [reflexivity |].
  destruct (plan_without_destinations world 0 p ok eq_refl)
    as [pl [E [L _]]].
  exists pl. split; [exact E |]. rewrite L. vm_compute. reflexivity.
Defined.

(** ** What a dry run shows *)

(** X16.  For a configuration whose test users have their entries, with
    the same surroundings a quiet dry run prints, after the diagnostics of
    the missing update scripts, exactly the commands that a live run of
    the same job hands to the shell, in the same order, and spawns
    none. *)
Theorem dry_run_shows_the_live_commands (w : World) (n : nat) (p : Porter)
    (dbg q' dbg' : bool) :
  users_have_permissions p ->
  exists shown live,
    do_portage w n (with_modes p true dbg true) = Ok shown
    /\ do_portage w n (with_modes p q' dbg' false) = Ok live
    /\ spawned shown = []
    /\ printed shown = (update_diagnostics w p ++ spawned live)%list.
Proof.
  intros ok.
  assert (ok1 : users_have_permissions (with_modes p true dbg true))
    by exact ok.
  assert (ok2 : users_have_permissions (with_modes p q' dbg' false))
    by exact ok.
  unfold do_portage.
  rewrite (plan_commands_spec w n _ ok1), (plan_commands_spec w n _ ok2).
  cbn [bind plan_self plan_cmd_list plan_printed].
  do 2 eexists. split; [reflexivity |]. split; [reflexivity |].
  split.
  - now apply execute_dry_effects.
  - rewrite execute_dry_quiet_console by reflexivity.
    rewrite execute_live_spawned by reflexivity.
    reflexivity.
Qed.

Lemma dry_run_shows_the_live_commands_witness :
  users_have_permissions busy
  /\ exists shown,
       do_portage world 0 (with_modes busy true false true) = Ok shown
       /\ List.length (printed shown) = 13.
Proof.
  split; [exact busy_users_have_permissions |].
  destruct (dry_run_shows_the_live_commands world 0 busy false false false
              busy_users_have_permissions)
    as [shown [live [E1 [E2 [_ P]]]]].
  exists shown. split; [exact E1 |]. rewrite P.
  vm_compute in E2. inversion E2. reflexivity.
Defined.

(** ** The loop over the jobs *)

Lemma portages_loop_effects_only (w : World) (q dbg dry : bool)
    (todo : list portage) :
  forall n s s',
    launched s = launched s' -> deleted s = deleted s' ->
    uncaught s = uncaught s' ->
    launched (portages_loop w q dbg dry todo n s)
    = launched (portages_loop w q dbg dry todo n s')
    /\ deleted (portages_loop w q dbg dry todo n s)
       = deleted (portages_loop w q dbg dry todo n s')
    /\ uncaught (portages_loop w q dbg dry todo n s)
       = uncaught (portages_loop w q dbg dry todo n s').
Proof.
  induction todo as [|j todo IH]; intros n s s' Hl Hd Hu;
    cbn [portages_loop]; [auto |].
  destruct (supported j).
  - destruct (MySQLPorter_init w (job_info j) q dbg dry) as [porter|e];
      [| cbn; auto].
    destruct (plan_commands w n porter) as [plan|e]; [| cbn; auto].
    apply IH; cbn [after_job launched deleted uncaught]; congruence.
  - apply IH; assumption.
Qed.

(** X17.  A job whose [db_type] is given and is not [mysql] is skipped:
    the commands launched, the files removed and the exception that ends
    the program, if any, are those of the same list of jobs without the
    skipped ones, and a job without [db_type] counts as a MySQL job. *)
Theorem unsupported_jobs_change_only_the_console (w : World)
    (q dbg dry : bool) (todo : list portage) (n : nat) (s : Session) :
  launched (portages_loop w q dbg dry todo n s)
  = launched (portages_loop w q dbg dry (filter supported todo) n s)
  /\ deleted (portages_loop w q dbg dry todo n s)
     = deleted (portages_loop w q dbg dry (filter supported todo) n s)
  /\ uncaught (portages_loop w q dbg dry todo n s)
     = uncaught (portages_loop w q dbg dry (filter supported todo) n s)
  /\ (forall j, db_type j = None -> supported j = true).
Proof.
  split; [| split; [| split]]; revert n s;
    try (induction todo as [|j todo IH]; intros n s;
         cbn [filter]; [reflexivity |];
         destruct (supported j) eqn:S; cbn [portages_loop]; rewrite S;
         [ destruct (MySQLPorter_init w (job_info j) q dbg dry)
             as [porter|e]; [| reflexivity];
           destruct (plan_commands w n porter) as [plan|e];
             [apply IH | reflexivity]
         | rewrite <- IH;
           apply (portages_loop_effects_only w q dbg dry todo n
                    (after_print s "Only MySQL portages supported") s);
           reflexivity ]).
  intros _ _ j H. unfold supported. now rewrite H.
Qed.

(** X18.  Once an exception escapes from building a porter or from
    planning a job, no later job is looked at: whatever jobs follow in the
    configuration, the session is the one of the jobs up to the raising
    one. *)
Theorem exception_ends_the_loop (w : World) (q dbg dry : bool)
    (done rest : list portage) (e : exn) :
  forall n s,
    uncaught s = None ->
    uncaught (portages_loop w q dbg dry done n s) = Some e ->
    portages_loop w q dbg dry (done ++ rest) n s
    = portages_loop w q dbg dry done n s.
Proof.
  induction done as [|j done IH]; intros n s Hnone Hraised.
  - cbn [portages_loop] in Hraised. congruence.
  - cbn [app portages_loop] in *.
    destruct (supported j).
    + destruct (MySQLPorter_init w (job_info j) q dbg dry) as [porter|e'];
        [| reflexivity].
      destruct (plan_commands w n porter) as [plan|e']; [| reflexivity].
      apply IH; [exact Hnone | exact Hraised].
    + apply IH; [exact Hnone | exact Hraised].
Qed.

Lemma unsupported_jobs_change_only_the_console_witness :
  let pg := {| db_type := Some "postgres"; job_info := job [] None [] [] |} in
  let my := {| db_type := None; job_info := job [] None [] [] |} in
  supported pg = false
  /\ supported my = true
  /\ launched (portages_loop world true false false [pg; my; pg] 0 new_session)
     = launched (portages_loop world true false false [my] 0 new_session)
  /\ console (portages_loop world true false false [pg; pg] 0 new_session)
     = ["Only MySQL portages supported"; "Only MySQL portages supported"].
Proof.
  cbv zeta. split; [reflexivity |]. split; [reflexivity |].
  split; [| reflexivity].
  exact (proj1 (unsupported_jobs_change_only_the_console world
                  true false false
                  [ {| db_type := Some "postgres";
                       job_info := job [] None [] [] |};
                    {| db_type := None; job_info := job [] None [] [] |};
                    {| db_type := Some "postgres";
                       job_info := job [] None [] [] |} ]
                  0 new_session)).
Defined.

Lemma exception_ends_the_loop_witness :
  let bad := {| db_type := Some "mysql";
                job_info := job [tester PermAbsent] None [] [] |} in
  let good := {| db_type := None; job_info := job [] None [] [] |} in
  uncaught new_session = None
  /\ uncaught (portages_loop world true false false [bad] 0 new_session)
     = Some (KeyError "permissions")
  /\ portages_loop world true false false ([bad] ++ [good]) 0 new_session
     = portages_loop world true false false [bad] 0 new_session
  /\ launched (portages_loop world true false false ([bad] ++ [good]) 0
                 new_session) = [].
Proof.
  cbv zeta. split; [reflexivity |]. split; [reflexivity |].
  split; [| reflexivity].
  exact (exception_ends_the_loop world true false false
           [ {| db_type := Some "mysql";
                job_info := job [tester PermAbsent] None [] [] |} ]
           [ {| db_type := None; job_info := job [] None [] [] |} ]
           (KeyError "permissions") 0 new_session eq_refl eq_refl).
Defined.

(** ** A failed step always spares a file it mentions *)

Lemma first_mentioned_split (cmd : string) (l : list string) :
  existsb (fun x => contains x cmd) l = true ->
  exists before tf rest,
    l = (before ++ tf :: rest)%list
    /\ contains tf cmd = true
    /\ forall x, In x before -> contains x cmd = false.
Proof.
  induction l as [|y l IH]; cbn [existsb]; [discriminate |].
  destruct (contains y cmd) eqn:E.
  - intros _. exists [], y, l. repeat split; [exact E | intros x []].
  - cbn [orb]. intros H. destruct (IH H) as [before [tf [rest [-> [M N]]]]].
    exists (y :: before), tf, rest. repeat split; [exact M |].
    intros x [<-|Hx]; auto.
Qed.

Lemma run_steps_app (w : World) (p : Porter) (pre post : list step)
    (st : Run) :
  run_steps w p (pre ++ post) st = run_steps w p post (run_steps w p pre st).
Proof. unfold run_steps. apply fold_left_app. Qed.

(** X19.  In a live run with distinct temporary files, when a step fails
    and its command mentions a temporary file of the porter, some
    temporary file that the command mentions is no longer pending at the
    end and is not removed, whatever else the command mentions and
    whatever the other steps report. *)
Theorem failed_step_spares_a_file (w : World) (p : Porter)
    (cmd_list : list step) (already : list string) (k : nat) (cmd : step) :
  dry_run p = false ->
  NoDup (temp_files p) ->
  nth_error cmd_list k = Some cmd ->
  contains "ERROR" (popen_stderr w k (snd cmd)) = true ->
  (exists tf, In tf (temp_files p) /\ contains tf (snd cmd) = true) ->
  exists tf,
    In tf (temp_files p)
    /\ contains tf (snd cmd) = true
    /\ ~ In tf (kept (execute w p cmd_list already))
    /\ ~ In tf (removed (execute w p cmd_list already)).
Proof.
  intros Hdry nd Hnth Herr [tf0 [Hin0 Hm0]].
  destruct (execute_end w p cmd_list already) as [st0 [T0 [S0 [K R]]]].
  destruct (nth_error_split _ _ Hnth) as [pre [post [-> Hk]]].
  rewrite run_steps_app in K.
  change (run_steps w p (cmd :: post) (run_steps w p pre st0))
    with (run_steps w p post (run_step w p (run_steps w p pre st0) cmd))
    in K.
  set (st1 := run_steps w p pre st0) in *.
  destruct (run_steps_temp_files_within w p pre st0) as [Sub1 Nd1].
  fold st1 in Sub1, Nd1. rewrite T0 in Sub1, Nd1.
  assert (Len : List.length (run_spawned st1) = k).
  { unfold st1. rewrite run_steps_spawned, S0 by exact Hdry.
    cbn [app]. now rewrite length_map. }
  destruct (run_step_effects w p st1 cmd Hdry) as [Ht _].
  unfold failed in Ht. rewrite Len, Herr in Ht.
  destruct (run_steps_temp_files_within w p post (run_step w p st1 cmd))
    as [Sub2 _].
  rewrite Ht in Sub2.
  assert (Spared : exists tf,
             In tf (temp_files p) /\ contains tf (snd cmd) = true
             /\ ~ In tf (forget_temp_files (snd cmd) (run_temp_files st1))).
  { destruct (existsb (fun x => contains x (snd cmd)) (run_temp_files st1))
      eqn:Ex.
    - destruct (first_mentioned_split _ _ Ex)
        as [before [tf [rest [El [M N]]]]].
      exists tf. split; [apply Sub1; rewrite El; apply in_elt |].
      split; [exact M |]. rewrite El.
      apply forget_first_mentioned; auto.
      rewrite <- El. now apply Nd1.
    - exists tf0. split; [exact Hin0 |]. split; [exact Hm0 |].
      intros H. apply forget_temp_files_within in H.
      assert (C : existsb (fun x => contains x (snd cmd))
                    (run_temp_files st1) = true)
        by (apply existsb_exists; exists tf0; auto).
      congruence. }
  destruct Spared as [tf [Hin [M Hgone]]].
  exists tf. split; [exact Hin |]. split; [exact M |].
  assert (NotKept : ~ In tf (kept (execute w p (pre ++ cmd :: post) already))).
  { rewrite K. intros H. apply Hgone, Sub2, H. }
  split; [exact NotKept |]. rewrite R. destruct (debug p); auto.
Qed.

Lemma failed_step_spares_a_file_witness :
  let p := set_temp_files busy ["/tmp/tmpA.sql"; "/tmp/tmpB.sql"] in
  let cmd_list := transfer_steps world 0 p in
  dry_run p = false
  /\ NoDup (temp_files p)
  /\ exists tf,
       In tf (temp_files p)
       /\ contains tf (snd (create_dump_command p true "/tmp/tmpA.sql")) = true
       /\ ~ In tf (removed (execute world p cmd_list [])).
Proof.
  cbv zeta.
  assert (nd : NoDup (temp_files
                        (set_temp_files busy
                           ["/tmp/tmpA.sql"; "/tmp/tmpB.sql"]))).
  { repeat constructor; cbn; intuition discriminate. }
  split; [reflexivity |]. split; [exact nd |].
  destruct (failed_step_spares_a_file world
              (set_temp_files busy ["/tmp/tmpA.sql"; "/tmp/tmpB.sql"])
              (transfer_steps world 0
                 (set_temp_files busy ["/tmp/tmpA.sql"; "/tmp/tmpB.sql"]))
              [] 0
              (create_dump_command
                 (set_temp_files busy ["/tmp/tmpA.sql"; "/tmp/tmpB.sql"])
                 true "/tmp/tmpA.sql")
              eq_refl nd eq_refl eq_refl)
    as [tf [Hin [M [_ Hr]]]].
  - exists "/tmp/tmpA.sql". split; [now left | reflexivity].
  - exists tf. auto.
Defined.

(** ** Jobs that cannot be planned, and jobs with nothing optional *)

(** X20.  When some test user has no [permissions] entry the job does not
    run at all: [do_portage] raises [KeyError] out of the planning, before
    any banner is printed, any temporary file is made or any command, the
    creation of the databases included, is spawned. *)
Theorem job_with_unset_permissions_does_not_run (w : World) (n : nat)
    (p : Porter) :
  (exists tu, In tu (test_users p) /\ tu_permissions tu = PermAbsent) ->
  plan_commands w n p = Raise (KeyError "permissions")
  /\ do_portage w n p = Raise (KeyError "permissions").
Proof.
  intros H.
  assert (T : truthy (test_users p) = true).
  { destruct H as [tu [Hin _]]. destruct (test_users p); [destruct Hin |].
    reflexivity. }
  assert (P : plan_commands w n p = Raise (KeyError "permissions")).
  { unfold plan_commands, create_grant_commands. rewrite T.
    now rewrite grant_user_loop_absent. }
  split; [exact P |]. unfold do_portage. now rewrite P.
Qed.

Lemma job_with_unset_permissions_does_not_run_witness :
  let p := porter false false false
             (job [tester (PermStr "admin"); tester PermAbsent]
                (Some true) [] []) in
  (exists tu, In tu (test_users p) /\ tu_permissions tu = PermAbsent)
  /\ do_portage world 0 p = Raise (KeyError "permissions").
Proof.
  cbv zeta.
  assert (H : exists tu,
             In tu (test_users
                      (porter false false false
                         (job [tester (PermStr "admin"); tester PermAbsent]
                            (Some true) [] [])))
             /\ tu_permissions tu = PermAbsent).
  { exists (tester PermAbsent). split; [right; now left | reflexivity]. }
  split; [exact H |].
  exact (proj2 (job_with_unset_permissions_does_not_run world 0 _ H)).
Defined.

(** X21.  A configuration that gives only [source] and [dest] plans one
    cycle and nothing else: a dump of all tables and data into one
    temporary file, then a load of it per destination; no database is
    created, no grant is made and no script is applied. *)
Theorem minimal_configuration_plan (w : World) (pi : port_info)
    (q dbg dry : bool) (p : Porter) (n : nat) :
  MySQLPorter_init w pi q dbg dry = Ok p ->
  pi_create_dest_db pi = None ->
  pi_test_users pi = None ->
  pi_fetch_data pi = None ->
  pi_ignore_tables pi = None ->
  pi_update pi = None ->
  exists pl,
    plan_commands w n p = Ok pl
    /\ plan_cmd_list pl
       = create_dump_command p false (temp_name w n)
           :: map (load_step p (temp_name w n)) (dest p)
    /\ snd (create_dump_command p false (temp_name w n))
       = dump_text p "--complete-insert" "" (temp_name w n)
    /\ temp_files (plan_self pl) = [temp_name w n]
    /\ plan_printed pl = [].
Proof.
  intros Hinit Hc Hu Hf Hi Hs.
  assert (Hp : p = set_variables pi q dbg dry (which w "mysqldump")
                     (which w "mysql")).
  { unfold MySQLPorter_init in Hinit.
    destruct (which w "mysqldump"); now inversion Hinit. }
  assert (F : create_dest_db p = false /\ test_users p = []
              /\ fetch_data p = true /\ ignore_tables p = []
              /\ update_scripts p = [] /\ temp_files p = []).
  { rewrite Hp. cbn. now rewrite Hc, Hu, Hf, Hi, Hs. }
  destruct F as [Fc [Fu [Ff [Fi [Fs Ft]]]]].
  assert (ok : users_have_permissions p).
  { intros tu Hin. rewrite Fu in Hin. destruct Hin. }
  eexists. split; [apply plan_commands_spec; exact ok |].
  cbn [plan_cmd_list plan_self plan_printed set_temp_files temp_files].
  unfold creation_steps, grant_steps, update_steps, update_diagnostics,
    transfer_steps, transfer_files, cycle.
  rewrite Fc, Fu, Ff, Fi, Fs, Ft. cbn [truthy andb flat_map filter map app].
  repeat split.
  - now rewrite app_nil_r.
  - rewrite create_dump_command_text. unfold data_flag. now rewrite Fi.
Qed.

Lemma minimal_configuration_plan_witness :
  let pi := {| pi_source := src; pi_dest := DestOne dst;
               pi_create_dest_db := None; pi_test_users := None;
               pi_fetch_data := None; pi_ignore_tables := None;
               pi_update := None |} in
  exists p pl,
    MySQLPorter_init world pi false false false = Ok p
    /\ plan_commands world 0 p = Ok pl
    /\ map snd (plan_cmd_list pl)
       = ["/usr/bin/mysqldump --lock-tables=false --routines=true --complete-insert  --result-file=/tmp/tmpA.sql -hsh -usu -psp sdb";
          "/usr/bin/mysql -hdh -udu -pdp ddb < /tmp/tmpA.sql"].
Proof.
  cbv zeta.
  set (pi := {| pi_source := src; pi_dest := DestOne dst;
                pi_create_dest_db := None; pi_test_users := None;
                pi_fetch_data := None; pi_ignore_tables := None;
                pi_update := None |}).
  assert (Hinit : MySQLPorter_init world pi false false false
                  = Ok (set_variables pi false false false
                          (Some "/usr/bin/mysqldump")
                          (Some "/usr/bin/mysql")))
    by (vm_compute; reflexivity).
  destruct (minimal_configuration_plan world pi false false false _ 0 Hinit
              eq_refl eq_refl eq_refl eq_refl eq_refl) as [pl [E [L _]]].
  eexists. exists pl. split; [exact Hinit |]. split; [exact E |].
  rewrite L. vm_compute. reflexivity.
Defined.

Lemma dump_text_names_result_file (p : Porter) (schema_only : bool)
    (file : string) :
  contains ("--result-file=" ++ file ++ " ")
    (snd (create_dump_command p schema_only file)) = true.
Proof.
  rewrite create_dump_command_text. unfold dump_text.
  do 5 apply contains_skip.
  set (tail := "-h" ++ host (source p) ++ " -u" ++ user (source p) ++
               " -p" ++ password (source p) ++ " " ++ name (source p)).
  replace (" --result-file=" ++ file ++ " -h" ++ host (source p) ++ " -u" ++
           user (source p) ++ " -p" ++ password (source p) ++ " " ++
           name (source p))
    with (" " ++ ("--result-file=" ++ file ++ " ") ++ tail)
    by (unfold tail; rewrite !append_assoc; reflexivity).
  apply contains_middle.
Qed.

(** X22.  Every temporary file that the planning of a fresh porter leaves
    pending is the result file of a dump of the plan and the input of a
    load of the plan for every destination; one or two files are made,
    and they are the next names of the temporary-file facility. *)
Theorem pending_files_are_dumped_and_loaded (w : World) (n : nat)
    (p : Porter) :
  users_have_permissions p ->
  temp_files p = [] ->
  exists pl,
    plan_commands w n p = Ok pl
    /\ (temp_files (plan_self pl) = [temp_name w n]
        \/ temp_files (plan_self pl) = [temp_name w n; temp_name w (S n)])
    /\ plan_temp_count pl = n + List.length (temp_files (plan_self pl))
    /\ forall file,
         In file (temp_files (plan_self pl)) ->
         (exists schema_only,
            In (create_dump_command p schema_only file) (plan_cmd_list pl)
            /\ contains ("--result-file=" ++ file ++ " ")
                 (snd (create_dump_command p schema_only file)) = true)
         /\ forall d, In d (dest p) ->
                      In (load_step p file d) (plan_cmd_list pl).
Proof.
  intros ok Ht. eexists. split; [apply plan_commands_spec; exact ok |].
  cbn [plan_cmd_list plan_self plan_temp_count set_temp_files temp_files].
  rewrite Ht. cbn [app].
  assert (Load : forall so file rest d,
             In d (dest p) ->
             In (load_step p file d)
               (creation_steps p ++ grant_steps p ++
                (cycle p so file ++ rest))%list).
  { intros so file rest d Hd. do 2 (apply in_or_app; right).
    apply in_or_app; left. right. now apply in_map. }
  assert (Dump : forall so file rest,
             In (create_dump_command p so file)
               (creation_steps p ++ grant_steps p ++
                (cycle p so file ++ rest))%list).
  { intros so file rest. do 2 (apply in_or_app; right).
    apply in_or_app; left. now left. }
  unfold transfer_steps, transfer_files.
  destruct (fetch_data p); [destruct (truthy (ignore_tables p)) |];
    cbn [andb List.length].
  - split; [now right |]. split; [reflexivity |].
    intros file [<-|[<-|[]]]; split.
    + exists true. split; [| apply dump_text_names_result_file].
      rewrite <- app_assoc. apply Dump.
    + intros d Hd. rewrite <- app_assoc. now apply (Load true).
    + exists false. split; [| apply dump_text_names_result_file].
      do 2 (apply in_or_app; right). apply in_or_app; left.
      apply in_or_app; right. now left.
    + intros d Hd. do 2 (apply in_or_app; right). apply in_or_app; left.
      apply in_or_app; right. right. now apply in_map.
  - split; [now left |]. split; [reflexivity |].
    intros file [<-|[]]; split.
    + exists false. split; [apply Dump | apply dump_text_names_result_file].
    + intros d Hd. now apply (Load false).
  - split; [now left |]. split; [reflexivity |].
    intros file [<-|[]]; split.
    + exists true. split; [apply Dump | apply dump_text_names_result_file].
    + intros d Hd. now apply (Load true).
Qed.

Lemma pending_files_are_dumped_and_loaded_witness :
  users_have_permissions busy
  /\ temp_files busy = []
  /\ exists pl,
       plan_commands world 0 busy = Ok pl
       /\ temp_files (plan_self pl) = ["/tmp/tmpA.sql"; "/tmp/tmpB.sql"]
       /\ plan_temp_count pl = 2.
Proof.
  split; [exact busy_users_have_permissions |]. split; [reflexivity |].
  destruct (pending_files_are_dumped_and_loaded world 0 busy
              busy_users_have_permissions eq_refl) as [pl [E [_ [C _]]]].
  exists pl. split; [exact E |].
  assert (T : temp_files (plan_self pl) = ["/tmp/tmpA.sql"; "/tmp/tmpB.sql"]).
  { vm_compute in E. inversion E. reflexivity. }
  split; [exact T |]. rewrite C, T. reflexivity.
Defined.
